(** * AgendaPrime: the calendar initializer of [static/agenda.js]

    The script registers one [DOMContentLoaded] listener.  The listener
    looks up two elements of the page, parses the JSON text of one of
    them, and hands the parsed events to FullCalendar together with a
    fixed set of display options.

    The development embeds that listener in a small state-and-exception
    monad.  Everything the listener does to the outside world (console
    output, the constructor call, the call of [render]) is appended to a
    trace, in program order.  The host's [JSON.parse], the calendar
    library and the page are parameters of the listener: the parse may
    throw, and so may the constructor and [render], which the script
    calls outside its [try].  Module [JSON] gives a reference parser, a
    lexer and a stack machine over its tokens; the concrete runs at the
    end of the file use it, and it is shown to read the text of an array
    into its elements in the order of the text. *)

From Stdlib Require Import ZArith NArith Ascii String List.
From stdpp Require Import gmap strings list.

Local Open Scope string_scope.
Local Open Scope list_scope.

(** ** JavaScript values that occur in the script *)

(** A JSON number, kept as the exact decimal [(-1)^negative * mantissa *
    10^exponent] in lowest terms ([mantissa] not divisible by 10, or zero
    with exponent zero).  The rounding to an IEEE double that the engine
    performs is not modelled; nothing in the script looks at a number. *)
Record number : Type := Number {
  negative : bool;
  mantissa : N;
  exponent : Z
}.

(** The values [JSON.parse] can return.  Strings hold the UTF-8 encoding
    of the JavaScript string; an object maps its own property names to
    values, a repeated name keeping the last value. *)
#[warnings="-register-all"]
Inductive value : Type :=
| VNull
| VBool (b : bool)
| VNumber (n : number)
| VString (s : string)
| VArray (elements : list value)
| VObject (properties : gmap string value).

(** Thrown values. *)
Inductive exn : Type :=
| SyntaxError (message : string)
| ReferenceError (message : string)
| TypeError (message : string).

(** [Array.isArray]. *)
Definition isArray (v : value) : bool :=
  match v with VArray _ => true | _ => false end.

(** ** A reference model of the host's [JSON.parse] *)

Module JSON.

Local Open Scope char_scope.
Local Open Scope N_scope.

Inductive token : Type :=
| TLBracket | TRBracket | TLBrace | TRBrace | TComma | TColon
| TScalar (v : value)
| TString (s : string).

Definition code (c : ascii) : N := N_of_ascii c.

(** JSON white space: space, tab, line feed, carriage return. *)
Definition is_ws (c : ascii) : bool :=
  let n := code c in (n =? 32) || (n =? 9) || (n =? 10) || (n =? 13).

Definition punct (c : ascii) : option token :=
  match c with
  | "[" => Some TLBracket | "]" => Some TRBracket
  | "{" => Some TLBrace | "}" => Some TRBrace
  | "," => Some TComma | ":" => Some TColon
  | _ => None
  end.

Definition digit (c : ascii) : option N :=
  let n := code c in
  if (48 <=? n) && (n <=? 57) then Some (n - 48) else None.

Definition hex_digit (c : ascii) : option N :=
  let n := code c in
  if (48 <=? n) && (n <=? 57) then Some (n - 48)
  else if (65 <=? n) && (n <=? 70) then Some (n - 55)
  else if (97 <=? n) && (n <=? 102) then Some (n - 87)
  else None.

(** *** Numbers *)

Fixpoint span_digits (cs : list ascii) : list N * list ascii :=
  match cs with
  | [] => ([], [])
  | c :: rest =>
      match digit c with
      | Some d => let (ds, tl) := span_digits rest in (d :: ds, tl)
      | None => ([], cs)
      end
  end.

Definition digits_value (ds : list N) : N :=
  fold_left (fun acc d => 10 * acc + d) ds 0.

(** Drops the zeros at the front of a list of digits and counts them. *)
Fixpoint drop_zeros (ds : list N) : list N * nat :=
  match ds with
  | 0 :: rest => let (ds', k) := drop_zeros rest in (ds', S k)
  | _ => (ds, O)
  end.

(** [digits] are the decimal digits of the mantissa, most significant
    first; its trailing zeros move into the exponent. *)
Definition normalise (neg : bool) (digits : list N) (e : Z) : number :=
  let (significant, zeros) := drop_zeros (rev digits) in
  let m := digits_value (rev significant) in
  if m =? 0 then Number neg 0 0%Z
  else Number neg m (e + Z.of_nat zeros)%Z.

Definition is_nil {A} (l : list A) : bool :=
  match l with [] => true | _ => false end.

(** The grammar of a JSON number: an optional minus sign; the integer
    part, a single zero or a nonzero digit followed by digits; an
    optional fraction, a point and at least one digit; an optional
    exponent, e or E, an optional sign and at least one digit. *)
Definition parse_number (cs : list ascii) : option number :=
  let (neg, cs1) :=
    match cs with "-" :: r => (true, r) | _ => (false, cs) end in
  let (ip, cs2) := span_digits cs1 in
  match ip with
  | [] => None
  | d :: ds =>
      if (d =? 0) && negb (is_nil ds) then None
      else
        let '(frac_ok, fp, cs3) :=
          match cs2 with
          | "." :: r => let (f, r') := span_digits r in (negb (is_nil f), f, r')
          | _ => (true, [], cs2)
          end in
        let '(exp_ok, e, cs4) :=
          match cs3 with
          | "e" :: r | "E" :: r =>
              let (eneg, r1) :=
                match r with
                | "-" :: r' => (true, r')
                | "+" :: r' => (false, r')
                | _ => (false, r)
                end in
              let (ed, r2) := span_digits r1 in
              let n := Z.of_N (digits_value ed) in
              (negb (is_nil ed), if eneg then (- n)%Z else n, r2)
          | _ => (true, 0%Z, cs3)
          end in
        if frac_ok && exp_ok && is_nil cs4
        then Some (normalise neg (ip ++ fp) (e - Z.of_nat (length fp))%Z)
        else None
  end.

(** A run of characters that is neither a string nor punctuation is one
    of the three literal names or a number. *)
Definition classify (word : list ascii) : option value :=
  let w := string_of_list_ascii word in
  if String.eqb w "null" then Some VNull
  else if String.eqb w "true" then Some (VBool true)
  else if String.eqb w "false" then Some (VBool false)
  else option_map VNumber (parse_number word).

(** *** Strings *)

(** What a string literal contributes: a byte of the text as it is, or
    the UTF-16 code unit of a [\uXXXX] escape. *)
Inductive sitem : Type :=
| Raw (c : ascii)
| Unit (u : N).

Definition byte (n : N) : ascii := ascii_of_N n.

Definition utf8 (cp : N) : list ascii :=
  if cp <? 128 then [byte cp]
  else if cp <? 2048 then
    [byte (192 + cp / 64); byte (128 + cp mod 64)]
  else if cp <? 65536 then
    [byte (224 + cp / 4096); byte (128 + (cp / 64) mod 64);
     byte (128 + cp mod 64)]
  else
    [byte (240 + cp / 262144); byte (128 + (cp / 4096) mod 64);
     byte (128 + (cp / 64) mod 64); byte (128 + cp mod 64)].

Definition is_high (u : N) : bool := (55296 <=? u) && (u <? 56320).
Definition is_low (u : N) : bool := (56320 <=? u) && (u <? 57344).

(** A high surrogate followed by a low one is one code point; a lone
    surrogate is encoded like any other three-byte unit. *)
Fixpoint encode (items : list sitem) : list ascii :=
  match items with
  | [] => []
  | Raw c :: rest => c :: encode rest
  | Unit h :: rest =>
      match rest with
      | Unit l :: rest' =>
          if is_high h && is_low l
          then utf8 (65536 + (h - 55296) * 1024 + (l - 56320)) ++ encode rest'
          else utf8 h ++ encode rest
      | _ => utf8 h ++ encode rest
      end
  end.

Definition escape (c : ascii) : option ascii :=
  match c with
  | "034" => Some c
  | "\" => Some c
  | "/" => Some c
  | "b" => Some (byte 8)
  | "f" => Some (byte 12)
  | "n" => Some (byte 10)
  | "r" => Some (byte 13)
  | "t" => Some (byte 9)
  | _ => None
  end.

(** *** The lexer: one pass over the characters *)

Inductive mode : Type :=
| Between
| InWord (acc : list ascii)
| InString (acc : list sitem)
| Escape (acc : list sitem)
| Unicode (acc : list sitem) (read : nat) (u : N).

Definition end_word (acc : list ascii) (toks : list token) : option (list token) :=
  match classify (rev acc) with
  | Some v => Some (TScalar v :: toks)
  | None => None
  end.

(** What follows a token boundary at character [c]. *)
Definition boundary (c : ascii) (toks : list token) : option (mode * list token) :=
  if is_ws c then Some (Between, toks)
  else match punct c with
       | Some t => Some (Between, t :: toks)
       | None =>
           if Ascii.eqb c "034" then Some (InString [], toks)
           else Some (InWord [c], toks)
       end.

Definition is_Some_b {A} (o : option A) : bool :=
  match o with Some _ => true | None => false end.

Definition ends_word (c : ascii) : bool :=
  is_ws c || is_Some_b (punct c) || Ascii.eqb c "034".

(** One character: the next mode and the tokens read so far.  [acc] and
    [toks] are kept in reverse. *)
Definition lex_char (m : mode) (toks : list token) (c : ascii)
  : option (mode * list token) :=
  match m with
  | Between => boundary c toks
  | InWord acc =>
      if ends_word c then
        match end_word acc toks with
        | Some toks1 => boundary c toks1
        | None => None
        end
      else Some (InWord (c :: acc), toks)
  | InString acc =>
      if Ascii.eqb c "034" then
        Some (Between, TString (string_of_list_ascii (encode (rev acc))) :: toks)
      else if Ascii.eqb c "\" then Some (Escape acc, toks)
      else if code c <? 32 then None
      else Some (InString (Raw c :: acc), toks)
  | Escape acc =>
      if Ascii.eqb c "u" then Some (Unicode acc 0 0, toks)
      else match escape c with
           | Some b => Some (InString (Raw b :: acc), toks)
           | None => None
           end
  | Unicode acc read u =>
      match hex_digit c with
      | Some d =>
          if Nat.eqb read 3
          then Some (InString (Unit (16 * u + d) :: acc), toks)
          else Some (Unicode acc (S read) (16 * u + d), toks)
      | None => None
      end
  end.

(** The end of the text: a word may end there, a string may not. *)
Definition lex_end (m : mode) (toks : list token) : option (list token) :=
  match m with
  | Between => Some (rev toks)
  | InWord acc => option_map (@rev token) (end_word acc toks)
  | _ => None
  end.

Fixpoint lex (m : mode) (toks : list token) (cs : list ascii) : option (list token) :=
  match cs with
  | [] => lex_end m toks
  | c :: rest =>
      match lex_char m toks c with
      | Some (m', toks') => lex m' toks' rest
      | None => None
      end
  end.

(** *** The parser: a stack of open arrays and objects *)

Inductive arr_state : Type :=
| AFirst      (* after the bracket: a value or the closing bracket *)
| AValue      (* after a comma: a value *)
| ANext.      (* after a value: a comma or the closing bracket *)

Inductive obj_state : Type :=
| OFirst                (* after the brace: a name or the closing brace *)
| OKey                  (* after a comma: a name *)
| OColon (k : string)   (* after a name: the colon *)
| OValue (k : string)   (* after the colon: a value *)
| ONext.                (* after a value: a comma or the closing brace *)

Inductive frame : Type :=
| FArr (acc : list value) (st : arr_state)
| FObj (m : gmap string value) (st : obj_state).

Record pstate : Type := PState {
  result : option value;
  stack : list frame
}.

Definition expects_value (p : pstate) : bool :=
  match stack p with
  | [] => negb (is_Some_b (result p))
  | FArr _ AFirst :: _ | FArr _ AValue :: _ => true
  | FObj _ (OValue _) :: _ => true
  | _ => false
  end.

(** A complete value goes to the innermost open container, or is the
    result when none is open. *)
Definition deliver (v : value) (p : pstate) : option pstate :=
  if expects_value p then
    match stack p with
    | [] => Some (PState (Some v) [])
    | FArr acc _ :: fs => Some (PState None (FArr (v :: acc) ANext :: fs))
    | FObj m (OValue k) :: fs => Some (PState None (FObj (<[k := v]> m) ONext :: fs))
    | _ => None
    end
  else None.

Definition step (p : pstate) (t : token) : option pstate :=
  match t with
  | TScalar v => deliver v p
  | TString s =>
      match stack p with
      | FObj m OFirst :: fs | FObj m OKey :: fs =>
          Some (PState None (FObj m (OColon s) :: fs))
      | _ => deliver (VString s) p
      end
  | TLBracket =>
      if expects_value p then Some (PState None (FArr [] AFirst :: stack p)) else None
  | TLBrace =>
      if expects_value p then Some (PState None (FObj ∅ OFirst :: stack p)) else None
  | TRBracket =>
      match stack p with
      | FArr acc AFirst :: fs | FArr acc ANext :: fs =>
          deliver (VArray (rev acc)) (PState None fs)
      | _ => None
      end
  | TRBrace =>
      match stack p with
      | FObj m OFirst :: fs | FObj m ONext :: fs =>
          deliver (VObject m) (PState None fs)
      | _ => None
      end
  | TComma =>
      match stack p with
      | FArr acc ANext :: fs => Some (PState None (FArr acc AValue :: fs))
      | FObj m ONext :: fs => Some (PState None (FObj m OKey :: fs))
      | _ => None
      end
  | TColon =>
      match stack p with
      | FObj m (OColon k) :: fs => Some (PState None (FObj m (OValue k) :: fs))
      | _ => None
      end
  end.

Fixpoint steps (p : pstate) (ts : list token) : option pstate :=
  match ts with
  | [] => Some p
  | t :: rest =>
      match step p t with
      | Some p' => steps p' rest
      | None => None
      end
  end.

(** The engine's message differs from one browser to the next; the
    model has one. *)
Definition syntax_error : exn := SyntaxError "Unexpected token in JSON".

Definition parse (text : string) : exn + value :=
  match lex Between [] (list_ascii_of_string text) with
  | None => inl syntax_error
  | Some ts =>
      match steps (PState None []) ts with
      | Some (PState (Some v) []) => inr v
      | _ => inl syntax_error
      end
  end.

(** The parser continued on [ts] from the result of a step. *)
Definition then_steps (o : option pstate) (ts : list token) : option pstate :=
  match o with Some p => steps p ts | None => None end.

(** [text] lexes to the tokens [ts]; the tokens [ts] are one value [v]. *)
Definition lexes (text : string) (ts : list token) : Prop :=
  lex Between [] (list_ascii_of_string text) = Some ts.

Definition completes (ts : list token) (v : value) : Prop :=
  steps (PState None []) ts = Some (PState (Some v) []).

(** *** The text of an array *)

(** The tokens of the elements, with a comma between two of them. *)
Fixpoint elements_tokens (tss : list (list token)) : list token :=
  match tss with
  | [] => []
  | ts :: rest =>
      match rest with
      | [] => ts
      | _ => ts ++ TComma :: elements_tokens rest
      end
  end.

(** The texts of the elements, with a comma between two of them. *)
Fixpoint elements_text (texts : list string) : string :=
  match texts with
  | [] => EmptyString
  | t :: rest =>
      match rest with
      | [] => t
      | _ => (t ++ "," ++ elements_text rest)%string
      end
  end.

Definition array_text (texts : list string) : string :=
  ("[" ++ elements_text texts ++ "]")%string.

End JSON.

(** ** The page *)

(** An element of the page, as far as the script looks at it: its id and
    its text content, which is a string for every element. *)
Record Element : Type := {
  Element_id : string;
  textContent : string
}.

(** The elements of the page in document order. *)
Definition Document : Type := list Element.

(** [document.getElementById]: the first element with that id, or null. *)
Definition getElementById (document : Document) (elementId : string) : option Element :=
  find (fun e => String.eqb (Element_id e) elementId) document.

(** ** The calendar library, as the script sees it *)

Module FullCalendar.

Record HeaderToolbar : Type := {
  left : string;
  center : string;
  right : string
}.

Record EventTimeFormat : Type := {
  hour : string;
  minute : string;
  hour12 : bool
}.

(** The option object of the constructor call. *)
Record Options : Type := {
  initialView : string;
  headerToolbar : HeaderToolbar;
  events : value;
  eventDisplay : string;
  eventTimeFormat : EventTimeFormat;
  locale : string;
  height : string;
  allDaySlot : bool;
  slotMinTime : string;
  slotMaxTime : string
}.

(** What [new FullCalendar.Calendar(el, options)] was given.  The
    library is not part of the repository: a calendar is known by the
    two arguments of its construction. *)
Record Calendar : Type := {
  el : option Element;
  options : Options
}.

(** Every option except [events]. *)
Definition display_options (o : Options) :=
  (initialView o, headerToolbar o, eventDisplay o, eventTimeFormat o,
   locale o, height o, allDaySlot o, slotMinTime o, slotMaxTime o).

(** The library's side of the two calls.  Its code is loaded by the page
    and is no part of the repository; for a calendar, that is for a mount
    element and an option object, the constructor returns ([None]) or
    throws, and so does [render]. *)
Record Library : Type := {
  constructor_outcome : Calendar -> option exn;
  render_outcome : Calendar -> option exn
}.

End FullCalendar.

(** ** Effects *)

Inductive console_arg : Type :=
| AText (s : string)
| AValue (v : value)
| AError (e : exn).

(** What the listener does to the world outside the script. *)
Inductive effect : Type :=
| ConsoleError (args : list console_arg)
| ConsoleLog (args : list console_arg)
| Construct (calendar : FullCalendar.Calendar)
| Render (calendar : FullCalendar.Calendar).

(** The one local of the listener that is assigned after its declaration
    ([let events]); [None] before the declaration has run.  The trace is
    in program order. *)
Record State : Type := {
  let_events : option value;
  trace : list effect
}.

Inductive completion (A : Type) : Type :=
| Returned (a : A)
| Threw (e : exn).
Arguments Returned {A} a.
Arguments Threw {A} e.

Definition M (A : Type) : Type := State -> completion A * State.

Definition ret {A} (a : A) : M A := fun s => (Returned a, s).

Definition bind {A B} (m : M A) (k : A -> M B) : M B :=
  fun s =>
    match m s with
    | (Returned a, s') => k a s'
    | (Threw e, s') => (Threw e, s')
    end.

Definition throw {A} (e : exn) : M A := fun s => (Threw e, s).

(** [try { body } catch (e) { handler }]: the handler starts in the state
    the body had reached when it threw. *)
Definition try_catch {A} (body : M A) (handler : exn -> M A) : M A :=
  fun s =>
    match body s with
    | (Returned a, s') => (Returned a, s')
    | (Threw e, s') => handler e s'
    end.

Declare Scope js_scope.
Delimit Scope js_scope with js.
Notation "x <- c1 ;; c2" := (bind c1 (fun x => c2))
  (at level 100, c1 at next level, right associativity) : js_scope.
Notation "c1 ;; c2" := (bind c1 (fun _ => c2))
  (at level 100, right associativity) : js_scope.

Definition emit (e : effect) : M unit :=
  fun s => (Returned tt, {| let_events := let_events s; trace := trace s ++ [e] |}).

Definition console_error (args : list console_arg) : M unit := emit (ConsoleError args).
Definition console_log (args : list console_arg) : M unit := emit (ConsoleLog args).

(** [let events = v]. *)
Definition declare_events (v : value) : M unit :=
  fun s => (Returned tt, {| let_events := Some v; trace := trace s |}).

(** [events = v]. *)
Definition assign_events (v : value) : M unit :=
  fun s =>
    match let_events s with
    | Some _ => (Returned tt, {| let_events := Some v; trace := trace s |})
    | None => (Threw (ReferenceError "Cannot access 'events' before initialization"), s)
    end.

(** A read of [events]. *)
Definition read_events : M value :=
  fun s =>
    match let_events s with
    | Some v => (Returned v, s)
    | None => (Threw (ReferenceError "Cannot access 'events' before initialization"), s)
    end.

(** [new FullCalendar.Calendar(el, options)]: the call is recorded with
    its two arguments; then the constructor returns the calendar or
    throws, as the library decides. *)
Definition new_Calendar (library : FullCalendar.Library)
    (el : option Element) (options : FullCalendar.Options) : M FullCalendar.Calendar :=
  let calendar := {| FullCalendar.el := el; FullCalendar.options := options |} in
  bind (emit (Construct calendar))
    (fun _ =>
       match FullCalendar.constructor_outcome library calendar with
       | Some e => throw e
       | None => ret calendar
       end).

(** [calendar.render()]: recorded, then it returns or throws. *)
Definition render (library : FullCalendar.Library) (calendar : FullCalendar.Calendar)
  : M unit :=
  bind (emit (Render calendar))
    (fun _ =>
       match FullCalendar.render_outcome library calendar with
       | Some e => throw e
       | None => ret tt
       end).

Definition initial_state : State := {| let_events := None; trace := [] |}.

(** ** Reading a trace *)

Definition is_console (e : effect) : bool :=
  match e with ConsoleError _ | ConsoleLog _ => true | _ => false end.

(** All that was written to the console, errors and plain messages. *)
Definition console_output (t : list effect) : list effect := List.filter is_console t.

(** The argument lists of the [console.error] calls. *)
Definition diagnostics (t : list effect) : list (list console_arg) :=
  omap (fun e => match e with ConsoleError args => Some args | _ => None end) t.

Definition constructed (t : list effect) : list FullCalendar.Calendar :=
  omap (fun e => match e with Construct c => Some c | _ => None end) t.

Definition rendered (t : list effect) : list FullCalendar.Calendar :=
  omap (fun e => match e with Render c => Some c | _ => None end) t.

(** The events of a view when its data source is an array. *)
Definition data_source (c : FullCalendar.Calendar) : option (list value) :=
  match FullCalendar.events (FullCalendar.options c) with
  | VArray l => Some l
  | _ => None
  end.

(** ** The listener *)

Section Listener.

Local Open Scope js_scope.

(** The host: its [JSON.parse], the calendar library the page has
    loaded, and the page. *)
Variable JSON_parse : string -> exn + value.
Variable library : FullCalendar.Library.
Variable document : Document.

Definition parse_JSON (text : string) : M value :=
  fun s =>
    match JSON_parse text with
    | inr v => (Returned v, s)
    | inl e => (Threw e, s)
    end.

(** Lines 11 to 17: the declaration of [events] and the [try] statement. *)
Definition parse_step (eventsData : Element) : M unit :=
  declare_events (VArray []) ;;
  try_catch
    (v <- parse_JSON (textContent eventsData) ;;
     assign_events v ;;
     events <- read_events ;;
     console_log [AText "Événements chargés :"; AValue events])
    (fun e =>
       console_error [AText "Erreur lors de l'analyse des événements :"; AError e]).

(** The object literal of lines 19 to 38. *)
Definition calendar_options (events : value) : FullCalendar.Options :=
  {| FullCalendar.initialView := "timeGridWeek";
     FullCalendar.headerToolbar :=
       {| FullCalendar.left := "prev,next today";
          FullCalendar.center := "title";
          FullCalendar.right := "dayGridMonth,timeGridWeek,timeGridDay,listWeek" |};
     FullCalendar.events := events;
     FullCalendar.eventDisplay := "block";
     FullCalendar.eventTimeFormat :=
       {| FullCalendar.hour := "2-digit";
          FullCalendar.minute := "2-digit";
          FullCalendar.hour12 := false |};
     FullCalendar.locale := "fr";
     FullCalendar.height := "auto";
     FullCalendar.allDaySlot := false;
     FullCalendar.slotMinTime := "07:00:00";
     FullCalendar.slotMaxTime := "20:00:00" |}.

(** The function given to [addEventListener].  [getElementById] returns
    an element or null, and only null is falsy: [!eventsData] is the
    [None] branch. *)
Definition DOMContentLoaded : M unit :=
  let calendarEl := getElementById document "calendar" in
  let eventsData := getElementById document "events-data" in
  match eventsData with
  | None => console_error [AText "Éléments events-data introuvable !"]
  | Some eventsData =>
      parse_step eventsData ;;
      events <- read_events ;;
      calendar <- new_Calendar library calendarEl (calendar_options events) ;;
      render library calendar
  end.

(** The event fires once per page load. *)
Definition page_load : completion unit * State := DOMContentLoaded initial_state.

Definition outcome : completion unit := fst page_load.
Definition effects : list effect := trace (snd page_load).

(** The calendar the listener builds for a given value of [events]. *)
Definition view_of_events (events : value) : FullCalendar.Calendar :=
  {| FullCalendar.el := getElementById document "calendar";
     FullCalendar.options := calendar_options events |}.

(** The value of [events] when the [try] statement is left. *)
Definition events_after_parse (eventsData : Element) : value :=
  match JSON_parse (textContent eventsData) with
  | inr v => v
  | inl _ => VArray []
  end.

End Listener.

(** What lines 19 to 40 add to the trace for the calendar [c], and how
    they complete: neither call is inside the [try], so what the library
    throws leaves the listener. *)
Definition library_calls (library : FullCalendar.Library) (c : FullCalendar.Calendar)
  : completion unit * list effect :=
  match FullCalendar.constructor_outcome library c with
  | Some e => (Threw e, [Construct c])
  | None =>
      match FullCalendar.render_outcome library c with
      | Some e => (Threw e, [Construct c; Render c])
      | None => (Returned tt, [Construct c; Render c])
      end
  end.

(** The three messages of the script. *)
Definition missing_container_message : string := "Éléments events-data introuvable !".
Definition loaded_message : string := "Événements chargés :".
Definition parse_failure_message : string := "Erreur lors de l'analyse des événements :".

(** ** The configuration in the words of the specification *)

(** The option object speaks FullCalendar's vocabulary of strings.  This
    module names what the specification says about the configuration and
    reads an option object into those terms. *)
Module Described.

Inductive View : Type := MonthGrid | WeekByTime | DayByTime | WeekAsList.

(** What a toolbar section can hold: the navigation controls, the
    title, a button that switches to a view. *)
Inductive Control : Type :=
| Previous | Next | Today
| Title
| Switch (v : View).

Inductive Display : Type := Block.
Inductive Language : Type := French.
Inductive Height : Type := Automatic.
Inductive Digits : Type := Numeric | TwoDigit.

Record Clock : Type := {
  hour_digits : Digits;
  minute_digits : Digits;
  twelve_hour : bool
}.

Record TimeOfDay : Type := {
  hours : N;
  minutes : N;
  seconds : N
}.

(** A toolbar section is a row of groups of adjacent controls. *)
Record Configuration : Type := {
  initial_view : View;
  toolbar_left : list (list Control);
  toolbar_center : list (list Control);
  toolbar_right : list (list Control);
  event_display : Display;
  clock : Clock;
  language : Language;
  height : Height;
  all_day_row : bool;
  window_start : TimeOfDay;
  window_end : TimeOfDay
}.

(** The configuration of section 4.1, step 3.  The navigation controls
    are previous, next and today. *)
Definition specified : Configuration :=
  {| initial_view := WeekByTime;
     toolbar_left := [[Previous; Next]; [Today]];
     toolbar_center := [[Title]];
     toolbar_right :=
       [[Switch MonthGrid; Switch WeekByTime; Switch DayByTime; Switch WeekAsList]];
     event_display := Block;
     clock := {| hour_digits := TwoDigit; minute_digits := TwoDigit;
                 twelve_hour := false |};
     language := French;
     height := Automatic;
     all_day_row := false;
     window_start := {| hours := 7; minutes := 0; seconds := 0 |};
     window_end := {| hours := 20; minutes := 0; seconds := 0 |} |}.

Definition is_navigation (c : Control) : bool :=
  match c with Previous | Next | Today => true | _ => false end.

(** *** Reading FullCalendar's strings *)

Definition view_of (name : string) : option View :=
  if String.eqb name "dayGridMonth" then Some MonthGrid
  else if String.eqb name "timeGridWeek" then Some WeekByTime
  else if String.eqb name "timeGridDay" then Some DayByTime
  else if String.eqb name "listWeek" then Some WeekAsList
  else None.

Definition control_of (name : string) : option Control :=
  if String.eqb name "prev" then Some Previous
  else if String.eqb name "next" then Some Next
  else if String.eqb name "today" then Some Today
  else if String.eqb name "title" then Some Title
  else option_map Switch (view_of name).

(** The pieces of [s] between occurrences of [sep]; [cur] is the piece
    being read, in reverse. *)
Fixpoint split_from (sep : ascii) (cur : list ascii) (s : string) : list string :=
  match s with
  | EmptyString => [string_of_list_ascii (rev cur)]
  | String c rest =>
      if Ascii.eqb c sep
      then string_of_list_ascii (rev cur) :: split_from sep [] rest
      else split_from sep (c :: cur) rest
  end.

Definition split (sep : ascii) (s : string) : list string := split_from sep [] s.

(** In a toolbar string a comma joins adjacent controls and a space
    separates groups. *)
Definition toolbar_of (s : string) : option (list (list Control)) :=
  mapM (fun group => mapM control_of (split "," group)) (split " " s).

Definition number_of (s : string) : option N :=
  match list_ascii_of_string s with
  | [] => None
  | cs => option_map JSON.digits_value (mapM JSON.digit cs)
  end.

(** A time of day, written hh:mm:ss. *)
Definition time_of (s : string) : option TimeOfDay :=
  match mapM number_of (split ":" s) with
  | Some [h; m; sec] =>
      if ((h <? 24) && (m <? 60) && (sec <? 60))%N
      then Some {| hours := h; minutes := m; seconds := sec |}
      else None
  | _ => None
  end.

Definition digits_of (s : string) : option Digits :=
  if String.eqb s "numeric" then Some Numeric
  else if String.eqb s "2-digit" then Some TwoDigit
  else None.

Definition display_of (s : string) : option Display :=
  if String.eqb s "block" then Some Block else None.

Definition language_of (s : string) : option Language :=
  if String.eqb s "fr" then Some French else None.

Definition height_of (s : string) : option Height :=
  if String.eqb s "auto" then Some Automatic else None.

Definition describe (o : FullCalendar.Options) : option Configuration :=
  view ← view_of (FullCalendar.initialView o);
  l ← toolbar_of (FullCalendar.left (FullCalendar.headerToolbar o));
  c ← toolbar_of (FullCalendar.center (FullCalendar.headerToolbar o));
  r ← toolbar_of (FullCalendar.right (FullCalendar.headerToolbar o));
  d ← display_of (FullCalendar.eventDisplay o);
  hd ← digits_of (FullCalendar.hour (FullCalendar.eventTimeFormat o));
  md ← digits_of (FullCalendar.minute (FullCalendar.eventTimeFormat o));
  lang ← language_of (FullCalendar.locale o);
  hgt ← height_of (FullCalendar.height o);
  from ← time_of (FullCalendar.slotMinTime o);
  to ← time_of (FullCalendar.slotMaxTime o);
  Some {| initial_view := view;
          toolbar_left := l; toolbar_center := c; toolbar_right := r;
          event_display := d;
          clock := {| hour_digits := hd; minute_digits := md;
                      twelve_hour := FullCalendar.hour12 (FullCalendar.eventTimeFormat o) |};
          language := lang;
          height := hgt;
          all_day_row := FullCalendar.allDaySlot o;
          window_start := from;
          window_end := to |}.

End Described.

(** ** Pages to run the listener on *)

Module Pages.

Definition quote : string := String (ascii_of_nat 34) EmptyString.

(** [s] between double quotes. *)
Definition q (s : string) : string := quote ++ s ++ quote.

Definition mount : Element :=
  {| Element_id := "calendar"; textContent := EmptyString |}.

Definition data (text : string) : Element :=
  {| Element_id := "events-data"; textContent := text |}.

Definition two_events_text : string :=
  "[{" ++ q "title" ++ ": " ++ q "Cours" ++ ", "
       ++ q "start" ++ ": " ++ q "2024-01-08T08:00:00" ++ ", "
       ++ q "end" ++ ": " ++ q "2024-01-08T10:00:00" ++ "}, {"
       ++ q "title" ++ ": " ++ q "TP" ++ ", "
       ++ q "start" ++ ": " ++ q "2024-01-09T14:00:00" ++ "}]".

Definition cours : value :=
  VObject (list_to_map
    [("title", VString "Cours");
     ("start", VString "2024-01-08T08:00:00");
     ("end", VString "2024-01-08T10:00:00")]).

Definition tp : value :=
  VObject (list_to_map
    [("title", VString "TP"); ("start", VString "2024-01-09T14:00:00")]).

Definition without_data : Document := [mount].
Definition with_text (text : string) : Document := [mount; data text].
Definition with_two_events : Document := with_text two_events_text.
Definition with_no_events : Document := with_text "[]".
Definition with_invalid_JSON : Document := with_text "not-json".
Definition with_object : Document := with_text "{}".
Definition with_number : Document := with_text "42".
Definition with_null : Document := with_text "null".
Definition without_mount : Document := [data "[]"].

(** A library that needs its mount element: the constructor throws when
    it is given null, and returns otherwise; [render] returns. *)
Definition library : FullCalendar.Library :=
  {| FullCalendar.constructor_outcome :=
       fun c =>
         match FullCalendar.el c with
         | Some _ => None
         | None => Some (TypeError "Cannot read properties of null")
         end;
     FullCalendar.render_outcome := fun _ => None |}.

End Pages.

(** ** The script and the event *)

(** Line 1 of the script calls [document.addEventListener].  The
    listeners of the document are kept by event type, in the order of
    their registration. *)
Definition listeners_of (registered : gmap string (list (M unit))) (type : string)
  : list (M unit) :=
  default [] (registered !! type).

Definition addEventListener (type : string) (listener : M unit)
    (registered : gmap string (list (M unit))) : gmap string (list (M unit)) :=
  <[type := listeners_of registered type ++ [listener]]> registered.

(** One call of a listener: the locals are its own, the trace goes on. *)
Definition invoke (listener : M unit) (t : list effect) : list effect :=
  trace (snd (listener {| let_events := None; trace := t |})).

(** The listeners of that type are called in the order of registration. *)
Definition dispatchEvent (registered : gmap string (list (M unit))) (type : string)
    (t : list effect) : list effect :=
  fold_left (fun t listener => invoke listener t) (listeners_of registered type) t.

(** The whole script: one registration. *)
Definition script (JSON_parse : string -> exn + value) (library : FullCalendar.Library)
    (document : Document)
    (registered : gmap string (list (M unit))) : gmap string (list (M unit)) :=
  addEventListener "DOMContentLoaded" (DOMContentLoaded JSON_parse library document)
    registered.

(** * Properties of the listener *)

Section Properties.

Variable JSON_parse : string -> exn + value.
Variable library : FullCalendar.Library.
Variable document : Document.

(** ** The library calls *)

Lemma constructed_library_calls (c : FullCalendar.Calendar) :
  constructed (snd (library_calls library c)) = [c].
Proof.
  unfold library_calls.
  destruct (FullCalendar.constructor_outcome library c); [reflexivity |].
  destruct (FullCalendar.render_outcome library c); reflexivity.
Qed.

(** [render] is called when the constructor has returned, and only then. *)
Lemma rendered_library_calls (c : FullCalendar.Calendar) :
  rendered (snd (library_calls library c)) =
    match FullCalendar.constructor_outcome library c with
    | None => [c]
    | Some _ => []
    end.
Proof.
  unfold library_calls.
  destruct (FullCalendar.constructor_outcome library c); [reflexivity |].
  destruct (FullCalendar.render_outcome library c); reflexivity.
Qed.

Lemma console_library_calls (c : FullCalendar.Calendar) :
  console_output (snd (library_calls library c)) = [] /\
  diagnostics (snd (library_calls library c)) = [].
Proof.
  unfold library_calls.
  destruct (FullCalendar.constructor_outcome library c); [split; reflexivity |].
  destruct (FullCalendar.render_outcome library c); split; reflexivity.
Qed.

Lemma library_calls_returning (c : FullCalendar.Calendar) :
  FullCalendar.constructor_outcome library c = None ->
  FullCalendar.render_outcome library c = None ->
  library_calls library c = (Returned tt, [Construct c; Render c]).
Proof.
  intros Hnew Hrender. unfold library_calls. rewrite Hnew, Hrender. reflexivity.
Qed.

(** The last two statements of the listener, from any state. *)
Lemma construct_and_render (el : option Element) (events : value) (s : State) :
  bind (new_Calendar library el (calendar_options events)) (render library) s =
    (fst (library_calls library
            {| FullCalendar.el := el; FullCalendar.options := calendar_options events |}),
     {| let_events := let_events s;
        trace := trace s ++
          snd (library_calls library
                 {| FullCalendar.el := el;
                    FullCalendar.options := calendar_options events |}) |}).
Proof.
  unfold library_calls, new_Calendar, render, bind, emit, throw, ret.
  cbn [fst snd let_events trace].
  destruct (FullCalendar.constructor_outcome library _); [reflexivity |].
  cbn [fst snd let_events trace].
  destruct (FullCalendar.render_outcome library _);
    rewrite <- app_assoc; reflexivity.
Qed.

(** ** The three ways through the listener *)

Lemma run_without_container :
  getElementById document "events-data" = None ->
  page_load JSON_parse library document =
    (Returned tt,
     {| let_events := None;
        trace := [ConsoleError [AText missing_container_message]] |}).
Proof.
  intros Habsent. unfold page_load, DOMContentLoaded.
  rewrite Habsent. reflexivity.
Qed.

Lemma parse_step_parsed (eventsData : Element) (v : value) (s : State) :
  JSON_parse (textContent eventsData) = inr v ->
  parse_step JSON_parse eventsData s =
    (Returned tt,
     {| let_events := Some v;
        trace := trace s ++ [ConsoleLog [AText loaded_message; AValue v]] |}).
Proof.
  intros Hparse.
  unfold parse_step, try_catch, bind, parse_JSON, declare_events.
  cbn. rewrite Hparse. reflexivity.
Qed.

Lemma parse_step_thrown (eventsData : Element) (e : exn) (s : State) :
  JSON_parse (textContent eventsData) = inl e ->
  parse_step JSON_parse eventsData s =
    (Returned tt,
     {| let_events := Some (VArray []);
        trace := trace s ++ [ConsoleError [AText parse_failure_message; AError e]] |}).
Proof.
  intros Hparse.
  unfold parse_step, try_catch, bind, parse_JSON, declare_events.
  cbn. rewrite Hparse. reflexivity.
Qed.

(** The listener from any trace, with the container present: the console
    line of the parse step, then the library calls for the view of
    [events]. *)
Lemma listener_with_container (eventsData : Element) (t : list effect) :
  getElementById document "events-data" = Some eventsData ->
  DOMContentLoaded JSON_parse library document {| let_events := None; trace := t |} =
    (fst (library_calls library
            (view_of_events document (events_after_parse JSON_parse eventsData))),
     {| let_events := Some (events_after_parse JSON_parse eventsData);
        trace := t ++
          match JSON_parse (textContent eventsData) with
          | inr v => ConsoleLog [AText loaded_message; AValue v]
          | inl e => ConsoleError [AText parse_failure_message; AError e]
          end ::
          snd (library_calls library
                 (view_of_events document (events_after_parse JSON_parse eventsData))) |}).
Proof.
  intros Hdata. unfold DOMContentLoaded, events_after_parse, view_of_events.
  rewrite Hdata. unfold bind at 1.
  destruct (JSON_parse (textContent eventsData)) as [e | v] eqn:Hparse.
  - rewrite (parse_step_thrown _ e _ Hparse).
    unfold bind at 1. unfold read_events at 1. cbn [let_events trace].
    rewrite construct_and_render. cbn [let_events trace].
    rewrite <- app_assoc. reflexivity.
  - rewrite (parse_step_parsed _ v _ Hparse).
    unfold bind at 1. unfold read_events at 1. cbn [let_events trace].
    rewrite construct_and_render. cbn [let_events trace].
    rewrite <- app_assoc. reflexivity.
Qed.

Lemma run_parsed (eventsData : Element) (v : value) :
  getElementById document "events-data" = Some eventsData ->
  JSON_parse (textContent eventsData) = inr v ->
  page_load JSON_parse library document =
    (fst (library_calls library (view_of_events document v)),
     {| let_events := Some v;
        trace := ConsoleLog [AText loaded_message; AValue v] ::
                 snd (library_calls library (view_of_events document v)) |}).
Proof.
  intros Hdata Hparse. unfold page_load, initial_state.
  rewrite (listener_with_container _ [] Hdata).
  unfold events_after_parse. rewrite Hparse. reflexivity.
Qed.

Lemma run_thrown (eventsData : Element) (e : exn) :
  getElementById document "events-data" = Some eventsData ->
  JSON_parse (textContent eventsData) = inl e ->
  page_load JSON_parse library document =
    (fst (library_calls library (view_of_events document (VArray []))),
     {| let_events := Some (VArray []);
        trace := ConsoleError [AText parse_failure_message; AError e] ::
                 snd (library_calls library (view_of_events document (VArray []))) |}).
Proof.
  intros Hdata Hparse. unfold page_load, initial_state.
  rewrite (listener_with_container _ [] Hdata).
  unfold events_after_parse. rewrite Hparse. reflexivity.
Qed.

(** With the container present, whatever the parse does, the constructor
    is called once, for the view of [events]; [render] is called on that
    calendar when the constructor has returned. *)
Lemma run_with_container (eventsData : Element) :
  getElementById document "events-data" = Some eventsData ->
  outcome JSON_parse library document =
    fst (library_calls library
           (view_of_events document (events_after_parse JSON_parse eventsData))) /\
  constructed (effects JSON_parse library document) =
    [view_of_events document (events_after_parse JSON_parse eventsData)] /\
  rendered (effects JSON_parse library document) =
    match FullCalendar.constructor_outcome library
            (view_of_events document (events_after_parse JSON_parse eventsData)) with
    | None => [view_of_events document (events_after_parse JSON_parse eventsData)]
    | Some _ => []
    end.
Proof.
  intros Hdata. unfold outcome, effects, page_load, initial_state.
  rewrite (listener_with_container _ [] Hdata). cbn [fst snd trace app].
  split; [reflexivity |].
  destruct (JSON_parse (textContent eventsData));
    (split; [exact (constructed_library_calls _) | exact (rendered_library_calls _)]).
Qed.

(** Every view the listener builds carries the fixed options around
    some value of [events]. *)
Lemma constructed_shape (c : FullCalendar.Calendar) :
  c ∈ constructed (effects JSON_parse library document) ->
  exists events, c = view_of_events document events.
Proof.
  destruct (getElementById document "events-data") as [eventsData |] eqn:Hdata.
  - destruct (run_with_container _ Hdata) as (_ & Hc & _).
    rewrite Hc. intros Hin.
    apply list_elem_of_singleton in Hin. eauto.
  - unfold effects. rewrite (run_without_container Hdata). cbn. intros Hin.
    inversion Hin.
Qed.

(** The console output of a run with the container present is the line of
    the parse step. *)
Lemma console_parsed (eventsData : Element) (v : value) :
  getElementById document "events-data" = Some eventsData ->
  JSON_parse (textContent eventsData) = inr v ->
  console_output (effects JSON_parse library document) =
    [ConsoleLog [AText loaded_message; AValue v]] /\
  diagnostics (effects JSON_parse library document) = [].
Proof.
  intros Hdata Hparse. unfold effects.
  rewrite (run_parsed _ _ Hdata Hparse). cbn [snd trace].
  destruct (console_library_calls (view_of_events document v)) as [Hc Hd].
  split.
  - change (ConsoleLog [AText loaded_message; AValue v] ::
            console_output (snd (library_calls library (view_of_events document v))) =
            [ConsoleLog [AText loaded_message; AValue v]]).
    rewrite Hc. reflexivity.
  - change (diagnostics (snd (library_calls library (view_of_events document v))) = []).
    exact Hd.
Qed.

Lemma console_thrown (eventsData : Element) (e : exn) :
  getElementById document "events-data" = Some eventsData ->
  JSON_parse (textContent eventsData) = inl e ->
  console_output (effects JSON_parse library document) =
    [ConsoleError [AText parse_failure_message; AError e]] /\
  diagnostics (effects JSON_parse library document) =
    [[AText parse_failure_message; AError e]].
Proof.
  intros Hdata Hparse. unfold effects.
  rewrite (run_thrown _ _ Hdata Hparse). cbn [snd trace].
  destruct (console_library_calls (view_of_events document (VArray []))) as [Hc Hd].
  split.
  - change (ConsoleError [AText parse_failure_message; AError e] ::
            console_output
              (snd (library_calls library (view_of_events document (VArray [])))) =
            [ConsoleError [AText parse_failure_message; AError e]]).
    rewrite Hc. reflexivity.
  - change ([AText parse_failure_message; AError e] ::
            diagnostics
              (snd (library_calls library (view_of_events document (VArray [])))) =
            [[AText parse_failure_message; AError e]]).
    rewrite Hd. reflexivity.
Qed.

(** ** Missing data container *)

(** C1. When the page has no element with id [events-data], the
    listener writes its diagnostic with [console.error] and returns: it
    builds no calendar, never calls [render], does nothing else, and
    completes normally, so no exception leaves the handler. *)
Theorem missing_container_aborts :
  getElementById document "events-data" = None ->
  outcome JSON_parse library document = Returned tt /\
  effects JSON_parse library document = [ConsoleError [AText missing_container_message]] /\
  diagnostics (effects JSON_parse library document) = [[AText missing_container_message]] /\
  constructed (effects JSON_parse library document) = [] /\
  rendered (effects JSON_parse library document) = [].
Proof.
  intros Habsent. unfold outcome, effects.
  rewrite (run_without_container Habsent). cbn. tauto.
Qed.

(** ** Malformed JSON *)

(** C2, as the code has it.  The constructor and [render] are called
    outside the [try].  Where the library's two calls return for the
    calendar built from the empty array, and [JSON.parse] throws on the
    text of the data container, the exception is caught and reported
    with the thrown value, the calendar is built and rendered with the
    empty array as [events], and the listener completes normally. *)
Theorem malformed_JSON_renders_empty (eventsData : Element) (e : exn) :
  getElementById document "events-data" = Some eventsData ->
  JSON_parse (textContent eventsData) = inl e ->
  FullCalendar.constructor_outcome library (view_of_events document (VArray [])) = None ->
  FullCalendar.render_outcome library (view_of_events document (VArray [])) = None ->
  outcome JSON_parse library document = Returned tt /\
  diagnostics (effects JSON_parse library document) =
    [[AText parse_failure_message; AError e]] /\
  exists c,
    effects JSON_parse library document =
      [ConsoleError [AText parse_failure_message; AError e]; Construct c; Render c] /\
    FullCalendar.events (FullCalendar.options c) = VArray [] /\
    data_source c = Some [].
Proof.
  intros Hdata Hparse Hnew Hrender.
  split; [| split].
  - unfold outcome. rewrite (run_thrown _ _ Hdata Hparse).
    rewrite (library_calls_returning _ Hnew Hrender). reflexivity.
  - exact (proj2 (console_thrown _ _ Hdata Hparse)).
  - exists (view_of_events document (VArray [])). unfold effects.
    rewrite (run_thrown _ _ Hdata Hparse).
    rewrite (library_calls_returning _ Hnew Hrender). repeat split.
Qed.

(** ** Well-formed JSON *)

(** C3. When the text of the data container parses to an array of [n]
    events, the one view that is built has exactly that array as its
    data source: [n] elements, the element at each index the one the
    parse returned there, none of them changed. *)
Theorem events_reach_view_in_order (eventsData : Element) (evs : list value) (n : nat) :
  getElementById document "events-data" = Some eventsData ->
  JSON_parse (textContent eventsData) = inr (VArray evs) ->
  length evs = n ->
  exists c,
    constructed (effects JSON_parse library document) = [c] /\
    FullCalendar.events (FullCalendar.options c) = VArray evs /\
    exists source,
      data_source c = Some source /\
      length source = n /\
      forall i : nat, source !! i = evs !! i.
Proof.
  intros Hdata Hparse Hlen.
  destruct (run_with_container _ Hdata) as (_ & Hc & _).
  unfold events_after_parse in Hc. rewrite Hparse in Hc.
  eexists. split; [exact Hc |].
  split; [reflexivity |].
  exists evs. auto.
Qed.

(** C9. The empty array is substituted only when the parse throws.  A
    text that parses to a value that is not an array gives that very
    value as the [events] option of the view; no [console.error] is
    written, the console holds the [console.log] line of the success
    path only. *)
Theorem non_array_passed_unchanged (eventsData : Element) (v : value) :
  getElementById document "events-data" = Some eventsData ->
  JSON_parse (textContent eventsData) = inr v ->
  isArray v = false ->
  diagnostics (effects JSON_parse library document) = [] /\
  console_output (effects JSON_parse library document) =
    [ConsoleLog [AText loaded_message; AValue v]] /\
  exists c,
    constructed (effects JSON_parse library document) = [c] /\
    FullCalendar.events (FullCalendar.options c) = v /\
    FullCalendar.events (FullCalendar.options c) <> VArray [] /\
    data_source c = None.
Proof.
  intros Hdata Hparse Hshape.
  destruct (console_parsed _ _ Hdata Hparse) as [Hconsole Hdiag].
  split; [exact Hdiag | split; [exact Hconsole |]].
  destruct (run_with_container _ Hdata) as (_ & Hc & _).
  unfold events_after_parse in Hc. rewrite Hparse in Hc.
  eexists. split; [exact Hc |]. repeat split.
  - cbn. intros ->. discriminate Hshape.
  - unfold data_source. cbn. destruct v; try reflexivity. discriminate Hshape.
Qed.

(** C7, as the code has it.  When the container is present and its text
    parses, the listener writes one line to the console, the
    [console.log] of the loaded events, and no [console.error]. *)
Theorem console_on_success (eventsData : Element) (v : value) :
  getElementById document "events-data" = Some eventsData ->
  JSON_parse (textContent eventsData) = inr v ->
  console_output (effects JSON_parse library document) =
    [ConsoleLog [AText loaded_message; AValue v]] /\
  diagnostics (effects JSON_parse library document) = [].
Proof.
  intros Hdata Hparse. exact (console_parsed _ _ Hdata Hparse).
Qed.

(** ** The parse step on its own *)

(** C10. From every state and for every text, the declaration of
    [events] and the [try] statement complete normally, and [events]
    then holds the value the parse returned or, when it threw, the
    initial empty array. *)
Theorem parse_step_total (eventsData : Element) (s : State) :
  exists s' : State,
    parse_step JSON_parse eventsData s = (Returned tt, s') /\
    let_events s' = Some (events_after_parse JSON_parse eventsData) /\
    ((exists v, JSON_parse (textContent eventsData) = inr v /\ let_events s' = Some v) \/
     (exists e, JSON_parse (textContent eventsData) = inl e /\
                let_events s' = Some (VArray []))).
Proof.
  unfold events_after_parse.
  case_eq (JSON_parse (textContent eventsData)).
  - intros e Hparse. eexists. split; [apply (parse_step_thrown _ e s Hparse) |].
    cbn. split; [reflexivity | right; eauto].
  - intros v Hparse. eexists. split; [apply (parse_step_parsed _ v s Hparse) |].
    cbn. split; [reflexivity | left; eauto].
Qed.

(** ** How many views *)

(** C6, as the code has it.  Where the library's constructor returns
    for the calendar the listener builds, the listener calls the
    constructor once and [render] once, on the calendar it constructed,
    exactly when the data container is present; the parse function is
    arbitrary, so this holds whether the parse returns or throws.  The
    constructor call is outside the [try]: a constructor that throws ends
    the listener before [render]. *)
Theorem one_view_iff_container :
  (forall c, c ∈ constructed (effects JSON_parse library document) ->
             FullCalendar.constructor_outcome library c = None) ->
  (length (constructed (effects JSON_parse library document)) = 1 /\
   length (rendered (effects JSON_parse library document)) = 1 /\
   rendered (effects JSON_parse library document) =
     constructed (effects JSON_parse library document))
  <-> is_Some (getElementById document "events-data").
Proof.
  destruct (getElementById document "events-data") as [eventsData |] eqn:Hdata.
  - destruct (run_with_container _ Hdata) as (_ & Hc & Hr).
    rewrite Hc, Hr. intros Hreturns.
    rewrite (Hreturns _ (list_elem_of_here _ _)).
    split; [eauto | intros _; repeat split].
  - unfold effects. rewrite (run_without_container Hdata). cbn. intros _. split.
    + intros (Hlen & _). discriminate Hlen.
    + intros [x Hx]. discriminate Hx.
Qed.

(** ** The mount element *)

(** C8. The listener never tests [calendarEl].  With the data container
    present and no element with id [calendar], it does not write the
    abort diagnostic and return: it calls the constructor with a null
    mount element. *)
Theorem missing_mount_reaches_constructor (eventsData : Element) :
  getElementById document "events-data" = Some eventsData ->
  getElementById document "calendar" = None ->
  (ConsoleError [AText missing_container_message] ∉ effects JSON_parse library document) /\
  exists options : FullCalendar.Options,
    constructed (effects JSON_parse library document) =
      [{| FullCalendar.el := None; FullCalendar.options := options |}].
Proof.
  intros Hdata Hmount. split.
  - unfold effects, page_load, initial_state.
    rewrite (listener_with_container _ [] Hdata). cbn [snd trace app].
    intros Hin. apply elem_of_cons in Hin as [Hline | Hcalls].
    + destruct (JSON_parse (textContent eventsData)); discriminate Hline.
    + unfold library_calls in Hcalls.
      destruct (FullCalendar.constructor_outcome library _);
        [| destruct (FullCalendar.render_outcome library _)];
        cbn [snd] in Hcalls;
        repeat (apply elem_of_cons in Hcalls as [Hcalls | Hcalls];
                [discriminate Hcalls |]);
        inversion Hcalls.
  - destruct (run_with_container _ Hdata) as (_ & Hc & _).
    unfold view_of_events in Hc. rewrite Hmount in Hc. eauto.
Qed.

(** ** The configuration *)

(** C5. Every calendar the listener constructs has the option values of
    the script, and these read as the configuration the specification
    describes: week by time slots first; previous, next and today on
    the left of the toolbar, the title in the centre, the four view
    buttons on the right; block display; a 24-hour clock with two-digit
    hours and minutes; French; automatic height; no all-day row; the
    day shown from 07:00 to 20:00. *)
Theorem configuration_as_specified (c : FullCalendar.Calendar) :
  c ∈ constructed (effects JSON_parse library document) ->
  FullCalendar.display_options (FullCalendar.options c) =
    ("timeGridWeek",
     {| FullCalendar.left := "prev,next today";
        FullCalendar.center := "title";
        FullCalendar.right := "dayGridMonth,timeGridWeek,timeGridDay,listWeek" |},
     "block",
     {| FullCalendar.hour := "2-digit"; FullCalendar.minute := "2-digit";
        FullCalendar.hour12 := false |},
     "fr", "auto", false, "07:00:00", "20:00:00") /\
  Described.describe (FullCalendar.options c) = Some Described.specified.
Proof.
  intros Hin. destruct (constructed_shape _ Hin) as [events ->].
  split; reflexivity.
Qed.

End Properties.

(** C4. Two page loads, with any two pages, any two parse functions and
    any behaviour of the library: the views they construct agree on every
    option other than [events], and each has locale "fr", the slots from
    07:00:00 to 20:00:00 and no all-day row. *)
Theorem display_options_are_constant
    (parse1 parse2 : string -> exn + value)
    (library1 library2 : FullCalendar.Library) (page1 page2 : Document)
    (c1 c2 : FullCalendar.Calendar) :
  c1 ∈ constructed (effects parse1 library1 page1) ->
  c2 ∈ constructed (effects parse2 library2 page2) ->
  FullCalendar.display_options (FullCalendar.options c1) =
    FullCalendar.display_options (FullCalendar.options c2) /\
  FullCalendar.locale (FullCalendar.options c1) = "fr" /\
  FullCalendar.slotMinTime (FullCalendar.options c1) = "07:00:00" /\
  FullCalendar.slotMaxTime (FullCalendar.options c1) = "20:00:00" /\
  FullCalendar.allDaySlot (FullCalendar.options c1) = false.
Proof.
  intros H1 H2.
  apply constructed_shape in H1 as [events1 ->].
  apply constructed_shape in H2 as [events2 ->].
  repeat split.
Qed.

(** * The reference parser on the text of an array *)

Module JSON_facts.

Import JSON.

(** ** The lexer on a text followed by a separator *)

(** A character adds tokens in front of those read so far and does not
    look at them. *)
Lemma boundary_frame (c : ascii) (toks : list token) (m : mode) (toks' : list token) :
  boundary c toks = Some (m, toks') ->
  exists new, toks' = new ++ toks /\
    forall base, boundary c base = Some (m, new ++ base).
Proof.
  unfold boundary. intros H.
  destruct (is_ws c).
  - inversion H; subst. exists []. split; [reflexivity | intros; reflexivity].
  - destruct (punct c) as [t |].
    + inversion H; subst. exists [t]. split; [reflexivity | intros; reflexivity].
    + destruct (Ascii.eqb c "034"); inversion H; subst;
        exists []; (split; [reflexivity | intros; reflexivity]).
Qed.

Lemma lex_char_frame (m : mode) (toks : list token) (c : ascii)
    (m' : mode) (toks' : list token) :
  lex_char m toks c = Some (m', toks') ->
  exists new, toks' = new ++ toks /\
    forall base, lex_char m base c = Some (m', new ++ base).
Proof.
  destruct m as [| acc | acc | acc | acc read u]; cbn [lex_char].
  - apply boundary_frame.
  - destruct (ends_word c).
    + unfold end_word. destruct (classify (rev acc)) as [v |]; [| discriminate].
      intros H. apply boundary_frame in H as (new & -> & Hnew).
      exists (new ++ [TScalar v]). split.
      * rewrite <- app_assoc. reflexivity.
      * intros base. rewrite <- app_assoc. apply Hnew.
    + intros H. inversion H; subst. exists []. split; [reflexivity | intros; reflexivity].
  - destruct (Ascii.eqb c "034").
    { intros H. inversion H; subst. eexists [_]. split; [reflexivity | intros; reflexivity]. }
    destruct (Ascii.eqb c "\").
    { intros H. inversion H; subst. exists []. split; [reflexivity | intros; reflexivity]. }
    destruct (N.ltb (code c) 32); [discriminate |].
    intros H. inversion H; subst. exists []. split; [reflexivity | intros; reflexivity].
  - destruct (Ascii.eqb c "u").
    { intros H. inversion H; subst. exists []. split; [reflexivity | intros; reflexivity]. }
    destruct (escape c); [| discriminate].
    intros H. inversion H; subst. exists []. split; [reflexivity | intros; reflexivity].
  - destruct (hex_digit c); [| discriminate].
    destruct (Nat.eqb read 3); intros H; inversion H; subst;
      exists []; (split; [reflexivity | intros; reflexivity]).
Qed.

(** A text that lexes on its own, followed by a comma or a closing
    bracket: its tokens, then the token of that character. *)
Lemma lex_then_separator (c : ascii) (t : token) (cs : list ascii) :
  (c = "," /\ t = TComma \/ c = "]" /\ t = TRBracket)%char ->
  forall (m : mode) (toks r extra : list token) (rest : list ascii),
    lex m toks cs = Some r ->
    lex m (toks ++ extra) (cs ++ c :: rest) = lex Between (t :: rev r ++ extra) rest.
Proof.
  intros Hc. induction cs as [| a cs IH]; intros m toks r extra rest Hlex.
  - cbn [lex app] in *. destruct m as [| acc | | |]; cbn [lex_end] in Hlex; try discriminate.
    + inversion Hlex; subst. rewrite rev_involutive.
      destruct Hc as [[-> ->] | [-> ->]]; reflexivity.
    + cbn [lex_char]. unfold end_word in *.
      destruct (classify (rev acc)) as [v |]; [| discriminate].
      cbn in Hlex. inversion Hlex; subst.
      rewrite rev_app_distr, rev_involutive.
      destruct Hc as [[-> ->] | [-> ->]]; reflexivity.
  - cbn [lex app] in *.
    destruct (lex_char m toks a) as [[m' toks'] |] eqn:Hstep; [| discriminate].
    apply lex_char_frame in Hstep as (new & -> & Hnew).
    rewrite Hnew, app_assoc. apply IH. exact Hlex.
Qed.

(** ** The parser on the tokens of one value *)

Lemma step_after_result (v : value) (t : token) : step (PState (Some v) []) t = None.
Proof. destruct t; reflexivity. Qed.

Lemma steps_after_result (v : value) (ts : list token) (p : pstate) :
  steps (PState (Some v) []) ts = Some p -> ts = [] /\ p = PState (Some v) [].
Proof.
  destruct ts as [| t ts]; cbn.
  - intros H. inversion H. auto.
  - rewrite step_after_result. discriminate.
Qed.

Lemma deliver_open (v : value) (f : frame) (fs : list frame) (p : pstate) :
  deliver v (PState None (f :: fs)) = Some p ->
  exists f', p = PState None (f' :: fs) /\
    forall below, deliver v (PState None (f :: below)) = Some (PState None (f' :: below)).
Proof.
  unfold deliver, expects_value. cbn.
  destruct f as [acc [] | m []]; intros H; inversion H; subst; eauto.
Qed.

(** A step of the machine with a frame open looks at the innermost frame;
    when it closes the last frame the value is complete. *)
Lemma step_open (f : frame) (fs : list frame) (t : token) (p : pstate) :
  step (PState None (f :: fs)) t = Some p ->
  (exists f' fs', p = PState None (f' :: fs') /\
     forall below, step (PState None (f :: fs ++ below)) t =
                   Some (PState None (f' :: fs' ++ below))) \/
  (exists v, p = PState (Some v) [] /\ fs = [] /\
     forall below, step (PState None (f :: below)) t = deliver v (PState None below)).
Proof.
  destruct t; cbn [step stack].
  - (* [ *)
    unfold expects_value; cbn.
    destruct f as [acc [] | m []]; intros H; inversion H; subst;
      left; eexists _, (_ :: _); split; try reflexivity; intros; reflexivity.
  - (* ] *)
    destruct f as [acc st | m st]; [| discriminate].
    assert (Hclose : deliver (VArray (rev acc)) (PState None fs) = Some p ->
      (exists f' fs', p = PState None (f' :: fs') /\
         forall below, deliver (VArray (rev acc)) (PState None (fs ++ below)) =
                       Some (PState None (f' :: fs' ++ below))) \/
      (exists v, p = PState (Some v) [] /\ fs = [] /\
         forall below, deliver (VArray (rev acc)) (PState None below) =
                       deliver v (PState None below))).
    { destruct fs as [| f2 fs2].
      - intros H. inversion H; subst. right. eauto.
      - intros H. apply deliver_open in H as (f' & -> & Hd). left.
        exists f', fs2. split; [reflexivity |]. intros. apply Hd. }
    destruct st; try discriminate; exact Hclose.
  - (* { *)
    unfold expects_value; cbn.
    destruct f as [acc [] | m []]; intros H; inversion H; subst;
      left; eexists _, (_ :: _); split; try reflexivity; intros; reflexivity.
  - (* } *)
    destruct f as [acc st | m st]; [discriminate |].
    assert (Hclose : deliver (VObject m) (PState None fs) = Some p ->
      (exists f' fs', p = PState None (f' :: fs') /\
         forall below, deliver (VObject m) (PState None (fs ++ below)) =
                       Some (PState None (f' :: fs' ++ below))) \/
      (exists v, p = PState (Some v) [] /\ fs = [] /\
         forall below, deliver (VObject m) (PState None below) =
                       deliver v (PState None below))).
    { destruct fs as [| f2 fs2].
      - intros H. inversion H; subst. right. eauto.
      - intros H. apply deliver_open in H as (f' & -> & Hd). left.
        exists f', fs2. split; [reflexivity |]. intros. apply Hd. }
    destruct st; try discriminate; exact Hclose.
  - (* , *)
    destruct f as [acc [] | m []]; intros H; inversion H; subst;
      left; eexists _, _; split; try reflexivity; intros; reflexivity.
  - (* : *)
    destruct f as [acc [] | m []]; intros H; inversion H; subst;
      left; eexists _, _; split; try reflexivity; intros; reflexivity.
  - (* scalar *)
    intros H. apply deliver_open in H as (f' & -> & Hd). left.
    exists f', fs. split; [reflexivity |]. intros. apply Hd.
  - (* string *)
    destruct f as [acc st | m st].
    + intros H. apply deliver_open in H as (f' & -> & Hd). left.
      exists f', fs. split; [reflexivity |]. intros. apply Hd.
    + destruct st;
        try (intros H; inversion H; subst; left; eexists _, _;
             split; [reflexivity | intros; reflexivity]);
        intros H; apply deliver_open in H as (f' & -> & Hd); left;
        exists f', fs; (split; [reflexivity |]); intros; apply Hd.
Qed.

(** Tokens that complete a value from an open frame do the same above any
    stack, and the value goes to what is below. *)
Lemma steps_open (ts : list token) :
  forall (f : frame) (fs : list frame) (v : value) (below : list frame) (rest : list token),
    steps (PState None (f :: fs)) ts = Some (PState (Some v) []) ->
    steps (PState None (f :: fs ++ below)) (ts ++ rest) =
      then_steps (deliver v (PState None below)) rest.
Proof.
  induction ts as [| t ts IH]; intros f fs v below rest Hrun; cbn in Hrun.
  - discriminate.
  - destruct (step (PState None (f :: fs)) t) as [p |] eqn:Hstep; [| discriminate].
    cbn [steps app].
    destruct (step_open _ _ _ _ Hstep)
      as [(f' & fs' & -> & Hup) | (v' & -> & -> & Hup)].
    + rewrite Hup. apply IH. exact Hrun.
    + apply steps_after_result in Hrun as [-> Heq]. inversion Heq; subst.
      cbn [app]. rewrite Hup. reflexivity.
Qed.

Lemma expects_value_deliver (v : value) (p : pstate) :
  expects_value p = true -> deliver v p = deliver v (PState None (stack p)).
Proof.
  destruct p as [r st]. unfold deliver, expects_value. cbn.
  destruct st as [| f fs]; [| reflexivity].
  destruct r; [discriminate | reflexivity].
Qed.

(** The tokens of a complete value, read where a value is expected,
    deliver that value. *)
Lemma steps_value (ts : list token) (v : value) (p : pstate) (rest : list token) :
  steps (PState None []) ts = Some (PState (Some v) []) ->
  expects_value p = true ->
  steps p (ts ++ rest) = then_steps (deliver v p) rest.
Proof.
  intros Hrun Hexp. destruct ts as [| t ts]; [discriminate |].
  cbn [steps app] in *.
  destruct (step (PState None []) t) as [p1 |] eqn:Hstep; [| discriminate].
  destruct t; cbn in Hstep; try discriminate; inversion Hstep; subst; clear Hstep.
  - (* [ *)
    unfold step at 1. rewrite Hexp.
    rewrite (expects_value_deliver v p Hexp).
    exact (steps_open ts _ [] v (stack p) rest Hrun).
  - (* { *)
    unfold step at 1. rewrite Hexp.
    rewrite (expects_value_deliver v p Hexp).
    exact (steps_open ts _ [] v (stack p) rest Hrun).
  - (* scalar *)
    apply steps_after_result in Hrun as [-> Heq]. inversion Heq; subst.
    reflexivity.
  - (* string *)
    apply steps_after_result in Hrun as [-> Heq]. inversion Heq; subst.
    cbn [app]. unfold step.
    destruct p as [r [| [acc st | m st] fs]]; try reflexivity.
    destruct st; try reflexivity; discriminate Hexp.
Qed.

(** ** Arrays *)

Lemma list_ascii_of_string_app (s1 s2 : string) :
  list_ascii_of_string (s1 ++ s2) = list_ascii_of_string s1 ++ list_ascii_of_string s2.
Proof.
  induction s1 as [| c s1 IH]; [reflexivity |].
  change (c :: list_ascii_of_string (s1 ++ s2) = c :: (list_ascii_of_string s1 ++ list_ascii_of_string s2)).
  f_equal. exact IH.
Qed.

Lemma parse_inr (text : string) (v : value) :
  parse text = inr v <-> exists ts, lexes text ts /\ completes ts v.
Proof.
  unfold parse, lexes, completes. split.
  - destruct (lex Between [] (list_ascii_of_string text)) as [ts |]; [| discriminate].
    destruct (steps (PState None []) ts) as [[[r |] [| f fs]] |] eqn:Hrun;
      intros H; inversion H; subst. eauto.
  - intros (ts & -> & ->). reflexivity.
Qed.

Lemma lex_elements (texts : list string) (tss : list (list token)) :
  Forall2 lexes texts tss ->
  texts <> [] ->
  forall (toks : list token) (rest : list ascii),
    lex Between toks (list_ascii_of_string (elements_text texts) ++ "]"%char :: rest) =
    lex Between (TRBracket :: rev (elements_tokens tss) ++ toks) rest.
Proof.
  induction 1 as [| text ts texts tss Hlex Hrest IH]; [congruence |].
  intros _ toks rest.
  destruct Hrest as [| text2 ts2 texts tss Hlex2 Hrest].
  - cbn [elements_text elements_tokens].
    apply (lex_then_separator "]" TRBracket _ (or_intror (conj eq_refl eq_refl))
             Between [] ts toks rest Hlex).
  - cbn [elements_text elements_tokens] in *.
    rewrite !list_ascii_of_string_app. cbn [list_ascii_of_string app].
    rewrite <- app_assoc. cbn [app].
    rewrite (lex_then_separator "," TComma _ (or_introl (conj eq_refl eq_refl))
               Between [] ts toks _ Hlex).
    rewrite IH by discriminate.
    f_equal. rewrite rev_app_distr. cbn [rev]. rewrite <- !app_assoc. reflexivity.
Qed.

Lemma steps_elements (tss : list (list token)) (vs : list value) :
  Forall2 completes tss vs ->
  tss <> [] ->
  forall (acc : list value) (st : arr_state) (below : list frame) (rest : list token),
    st = AFirst \/ st = AValue ->
    steps (PState None (FArr acc st :: below)) (elements_tokens tss ++ rest) =
    steps (PState None (FArr (rev vs ++ acc) ANext :: below)) rest.
Proof.
  induction 1 as [| ts v tss vs Hv Hrest IH]; [congruence |].
  intros _ acc st below rest Hst.
  assert (Hexp : expects_value (PState None (FArr acc st :: below)) = true)
    by (destruct Hst as [-> | ->]; reflexivity).
  assert (Hdel : deliver v (PState None (FArr acc st :: below)) =
                 Some (PState None (FArr (v :: acc) ANext :: below)))
    by (destruct Hst as [-> | ->]; reflexivity).
  destruct Hrest as [| ts2 v2 tss vs Hv2 Hrest].
  - cbn [elements_tokens rev app].
    rewrite (steps_value ts v _ rest Hv Hexp), Hdel. reflexivity.
  - cbn [elements_tokens] in *. rewrite <- app_assoc. cbn [app].
    rewrite (steps_value ts v _ _ Hv Hexp), Hdel.
    cbn [then_steps steps step stack].
    rewrite IH by (discriminate || auto).
    cbn [rev]. rewrite <- !app_assoc. reflexivity.
Qed.

Lemma Forall2_through {A B C} (P : A -> B -> Prop) (Q : B -> C -> Prop)
    (xs : list A) (zs : list C) :
  Forall2 (fun x z => exists y, P x y /\ Q y z) xs zs ->
  exists ys, Forall2 P xs ys /\ Forall2 Q ys zs.
Proof.
  induction 1 as [| x z xs zs (y & HP & HQ) _ (ys & HPs & HQs)].
  - exists []. split; constructor.
  - exists (y :: ys). split; constructor; assumption.
Qed.

(** The reference parser reads the text of an array into the array of the
    values of its elements, in the order of the text. *)
Lemma parse_array_text (texts : list string) (vs : list value) :
  Forall2 (fun text v => parse text = inr v) texts vs ->
  parse (array_text texts) = inr (VArray vs).
Proof.
  intros Hall.
  assert (Hex : Forall2 (fun text v => exists ts, lexes text ts /\ completes ts v) texts vs).
  { eapply Forall2_impl; [exact Hall |]. intros text v. apply parse_inr. }
  apply Forall2_through in Hex as (tss & Hlex & Hrun).
  apply parse_inr.
  destruct texts as [| text texts].
  - inversion Hall; subst. exists [TLBracket; TRBracket]. split; reflexivity.
  - exists (TLBracket :: elements_tokens tss ++ [TRBracket]). split.
    + unfold lexes, array_text.
      rewrite !list_ascii_of_string_app. cbn [list_ascii_of_string app lex].
      change (lex_char Between [] "[") with (Some (Between, [TLBracket])).
      cbv iota beta.
      rewrite (lex_elements _ _ Hlex) by discriminate.
      cbn [lex lex_end rev]. rewrite rev_app_distr, rev_involutive. reflexivity.
    + unfold completes. cbn [steps step].
      change (expects_value (PState None [])) with true. cbv iota beta. cbn [stack].
      assert (Hne : tss <> []) by (inversion Hlex; discriminate).
      rewrite (steps_elements _ _ Hrun Hne [] AFirst [] [TRBracket] (or_introl eq_refl)).
      cbn [steps step stack]. rewrite app_nil_r, rev_involutive. reflexivity.
Qed.

End JSON_facts.

(** Where the container holds the text of an array, each element a JSON
    text of its own for the reference parser, the view receives the
    values of the elements in the order of the text. *)
Lemma array_text_reaches_view (library : FullCalendar.Library) (document : Document)
    (eventsData : Element) (texts : list string) (vs : list value) :
  getElementById document "events-data" = Some eventsData ->
  textContent eventsData = JSON.array_text texts ->
  Forall2 (fun text v => JSON.parse text = inr v) texts vs ->
  exists c,
    constructed (effects JSON.parse library document) = [c] /\
    data_source c = Some vs /\
    length vs = length texts.
Proof.
  intros Hdata Htext Hall.
  destruct (run_with_container JSON.parse library document _ Hdata) as (_ & Hc & _).
  unfold events_after_parse in Hc.
  rewrite Htext, (JSON_facts.parse_array_text _ _ Hall) in Hc.
  eexists. split; [exact Hc | split; [reflexivity |]].
  symmetry. eapply Forall2_length. exact Hall.
Qed.

(** * The listener on concrete pages, with the reference parser *)

Lemma parse_two_events :
  JSON.parse Pages.two_events_text = inr (VArray [Pages.cours; Pages.tp]).
Proof. vm_compute. reflexivity. Qed.

Lemma parse_not_json : JSON.parse "not-json" = inl JSON.syntax_error.
Proof. reflexivity. Qed.

Lemma parse_scalars :
  JSON.parse "{}" = inr (VObject ∅) /\
  JSON.parse "42" = inr (VNumber (Number false 42 0)) /\
  JSON.parse "null" = inr VNull.
Proof. repeat split. Qed.

(** A page without the data container. *)
Lemma missing_container_aborts_witness :
  getElementById Pages.without_data "events-data" = None /\
  outcome JSON.parse Pages.library Pages.without_data = Returned tt /\
  effects JSON.parse Pages.library Pages.without_data =
    [ConsoleError [AText missing_container_message]] /\
  diagnostics (effects JSON.parse Pages.library Pages.without_data) =
    [[AText missing_container_message]] /\
  constructed (effects JSON.parse Pages.library Pages.without_data) = [] /\
  rendered (effects JSON.parse Pages.library Pages.without_data) = [].
Proof.
  split; [reflexivity |].
  apply (missing_container_aborts JSON.parse Pages.library Pages.without_data). reflexivity.
Defined.

(** The text [not-json], on a page with its mount element. *)
Lemma malformed_JSON_renders_empty_witness :
  getElementById Pages.with_invalid_JSON "events-data" = Some (Pages.data "not-json") /\
  JSON.parse (textContent (Pages.data "not-json")) = inl JSON.syntax_error /\
  FullCalendar.constructor_outcome Pages.library
    (view_of_events Pages.with_invalid_JSON (VArray [])) = None /\
  FullCalendar.render_outcome Pages.library
    (view_of_events Pages.with_invalid_JSON (VArray [])) = None /\
  outcome JSON.parse Pages.library Pages.with_invalid_JSON = Returned tt /\
  diagnostics (effects JSON.parse Pages.library Pages.with_invalid_JSON) =
    [[AText parse_failure_message; AError JSON.syntax_error]] /\
  exists c,
    effects JSON.parse Pages.library Pages.with_invalid_JSON =
      [ConsoleError [AText parse_failure_message; AError JSON.syntax_error];
       Construct c; Render c] /\
    FullCalendar.events (FullCalendar.options c) = VArray [] /\
    data_source c = Some [].
Proof.
  do 4 (split; [reflexivity |]).
  apply (malformed_JSON_renders_empty JSON.parse Pages.library Pages.with_invalid_JSON
           (Pages.data "not-json") JSON.syntax_error); reflexivity.
Defined.

(** Two events, in the order of the text. *)
Lemma events_reach_view_in_order_witness :
  getElementById Pages.with_two_events "events-data" = Some (Pages.data Pages.two_events_text) /\
  JSON.parse (textContent (Pages.data Pages.two_events_text)) =
    inr (VArray [Pages.cours; Pages.tp]) /\
  length [Pages.cours; Pages.tp] = 2 /\
  exists c,
    constructed (effects JSON.parse Pages.library Pages.with_two_events) = [c] /\
    FullCalendar.events (FullCalendar.options c) = VArray [Pages.cours; Pages.tp] /\
    exists source,
      data_source c = Some source /\
      length source = 2 /\
      forall i : nat, source !! i = [Pages.cours; Pages.tp] !! i.
Proof.
  split; [reflexivity | split; [vm_compute; reflexivity | split; [reflexivity |]]].
  apply (events_reach_view_in_order JSON.parse Pages.library Pages.with_two_events
           (Pages.data Pages.two_events_text) [Pages.cours; Pages.tp] 2).
  - reflexivity.
  - vm_compute. reflexivity.
  - reflexivity.
Defined.

(** The text of an empty object. *)
Lemma non_array_passed_unchanged_witness :
  getElementById Pages.with_object "events-data" = Some (Pages.data "{}") /\
  JSON.parse (textContent (Pages.data "{}")) = inr (VObject ∅) /\
  isArray (VObject ∅) = false /\
  diagnostics (effects JSON.parse Pages.library Pages.with_object) = [] /\
  console_output (effects JSON.parse Pages.library Pages.with_object) =
    [ConsoleLog [AText loaded_message; AValue (VObject ∅)]] /\
  exists c,
    constructed (effects JSON.parse Pages.library Pages.with_object) = [c] /\
    FullCalendar.events (FullCalendar.options c) = VObject ∅ /\
    FullCalendar.events (FullCalendar.options c) <> VArray [] /\
    data_source c = None.
Proof.
  split; [reflexivity | split; [reflexivity | split; [reflexivity |]]].
  apply (non_array_passed_unchanged JSON.parse Pages.library Pages.with_object
           (Pages.data "{}") (VObject ∅)); reflexivity.
Defined.

(** The same for a number and for null. *)
Lemma number_and_null_passed_unchanged :
  map (fun c => FullCalendar.events (FullCalendar.options c))
      (constructed (effects JSON.parse Pages.library Pages.with_number)) =
    [VNumber (Number false 42 0)] /\
  map (fun c => FullCalendar.events (FullCalendar.options c))
      (constructed (effects JSON.parse Pages.library Pages.with_null)) = [VNull].
Proof. split; reflexivity. Qed.

(** C7 as stated fails on the page whose data container holds the empty
    array: the container is present, the text parses, and the console has
    received the line of [console.log]. *)
Lemma success_path_writes_to_console :
  getElementById Pages.with_no_events "events-data" = Some (Pages.data "[]") /\
  JSON.parse (textContent (Pages.data "[]")) = inr (VArray []) /\
  console_output (effects JSON.parse Pages.library Pages.with_no_events) =
    [ConsoleLog [AText "Événements chargés :"; AValue (VArray [])]] /\
  console_output (effects JSON.parse Pages.library Pages.with_no_events) <> [].
Proof.
  repeat split. discriminate.
Qed.

Lemma console_on_success_witness :
  getElementById Pages.with_two_events "events-data" = Some (Pages.data Pages.two_events_text) /\
  JSON.parse (textContent (Pages.data Pages.two_events_text)) =
    inr (VArray [Pages.cours; Pages.tp]) /\
  console_output (effects JSON.parse Pages.library Pages.with_two_events) =
    [ConsoleLog [AText loaded_message; AValue (VArray [Pages.cours; Pages.tp])]] /\
  diagnostics (effects JSON.parse Pages.library Pages.with_two_events) = [].
Proof.
  split; [reflexivity | split; [vm_compute; reflexivity |]].
  apply (console_on_success JSON.parse Pages.library Pages.with_two_events
           (Pages.data Pages.two_events_text) (VArray [Pages.cours; Pages.tp])).
  - reflexivity.
  - vm_compute. reflexivity.
Defined.

(** A page with the data container and no mount element, and a library
    whose constructor throws on a null mount. *)
Lemma missing_mount_reaches_constructor_witness :
  getElementById Pages.without_mount "events-data" = Some (Pages.data "[]") /\
  getElementById Pages.without_mount "calendar" = None /\
  (ConsoleError [AText missing_container_message]
     ∉ effects JSON.parse Pages.library Pages.without_mount) /\
  exists options : FullCalendar.Options,
    constructed (effects JSON.parse Pages.library Pages.without_mount) =
      [{| FullCalendar.el := None; FullCalendar.options := options |}].
Proof.
  split; [reflexivity | split; [reflexivity |]].
  apply (missing_mount_reaches_constructor JSON.parse Pages.library Pages.without_mount
           (Pages.data "[]")); reflexivity.
Defined.

(** The view of the page with two events. *)
Lemma configuration_as_specified_witness :
  view_of_events Pages.with_two_events (VArray [Pages.cours; Pages.tp])
    ∈ constructed (effects JSON.parse Pages.library Pages.with_two_events) /\
  FullCalendar.display_options
    (FullCalendar.options
       (view_of_events Pages.with_two_events (VArray [Pages.cours; Pages.tp]))) =
    ("timeGridWeek",
     {| FullCalendar.left := "prev,next today";
        FullCalendar.center := "title";
        FullCalendar.right := "dayGridMonth,timeGridWeek,timeGridDay,listWeek" |},
     "block",
     {| FullCalendar.hour := "2-digit"; FullCalendar.minute := "2-digit";
        FullCalendar.hour12 := false |},
     "fr", "auto", false, "07:00:00", "20:00:00") /\
  Described.describe
    (FullCalendar.options
       (view_of_events Pages.with_two_events (VArray [Pages.cours; Pages.tp]))) =
    Some Described.specified.
Proof.
  split; [vm_compute; apply list_elem_of_here |].
  apply (configuration_as_specified JSON.parse Pages.library Pages.with_two_events).
  vm_compute. apply list_elem_of_here.
Defined.

(** A page with two events against a page whose data does not parse. *)
Lemma display_options_are_constant_witness :
  view_of_events Pages.with_two_events (VArray [Pages.cours; Pages.tp])
    ∈ constructed (effects JSON.parse Pages.library Pages.with_two_events) /\
  view_of_events Pages.with_invalid_JSON (VArray [])
    ∈ constructed (effects JSON.parse Pages.library Pages.with_invalid_JSON) /\
  FullCalendar.display_options
    (FullCalendar.options
       (view_of_events Pages.with_two_events (VArray [Pages.cours; Pages.tp]))) =
    FullCalendar.display_options
      (FullCalendar.options (view_of_events Pages.with_invalid_JSON (VArray []))) /\
  FullCalendar.locale
    (FullCalendar.options
       (view_of_events Pages.with_two_events (VArray [Pages.cours; Pages.tp]))) = "fr" /\
  FullCalendar.slotMinTime
    (FullCalendar.options
       (view_of_events Pages.with_two_events (VArray [Pages.cours; Pages.tp]))) = "07:00:00" /\
  FullCalendar.slotMaxTime
    (FullCalendar.options
       (view_of_events Pages.with_two_events (VArray [Pages.cours; Pages.tp]))) = "20:00:00" /\
  FullCalendar.allDaySlot
    (FullCalendar.options
       (view_of_events Pages.with_two_events (VArray [Pages.cours; Pages.tp]))) = false.
Proof.
  split; [vm_compute; apply list_elem_of_here |].
  split; [vm_compute; apply list_elem_of_here |].
  apply (display_options_are_constant JSON.parse JSON.parse
           Pages.library Pages.library
           Pages.with_two_events Pages.with_invalid_JSON).
  - vm_compute. apply list_elem_of_here.
  - vm_compute. apply list_elem_of_here.
Defined.

(** The page with two events: its one calendar has a mount element, and
    the constructor returns. *)
Lemma one_view_iff_container_witness :
  (forall c, c ∈ constructed (effects JSON.parse Pages.library Pages.with_two_events) ->
             FullCalendar.constructor_outcome Pages.library c = None) /\
  ((length (constructed (effects JSON.parse Pages.library Pages.with_two_events)) = 1 /\
    length (rendered (effects JSON.parse Pages.library Pages.with_two_events)) = 1 /\
    rendered (effects JSON.parse Pages.library Pages.with_two_events) =
      constructed (effects JSON.parse Pages.library Pages.with_two_events))
   <-> is_Some (getElementById Pages.with_two_events "events-data")).
Proof.
  assert (Hreturns :
    forall c, c ∈ constructed (effects JSON.parse Pages.library Pages.with_two_events) ->
              FullCalendar.constructor_outcome Pages.library c = None).
  { intros c Hin. vm_compute in Hin.
    apply list_elem_of_singleton in Hin. subst c. reflexivity. }
  split; [exact Hreturns |].
  apply (one_view_iff_container JSON.parse Pages.library Pages.with_two_events).
  exact Hreturns.
Defined.

(** C2 as stated fails where the library throws: the container holds
    [not-json] and the page has no mount element.  The parse failure is
    caught and reported and the constructor is called with the empty
    array, but the constructor throws on the null mount: nothing is
    rendered and the exception leaves the listener. *)
Lemma malformed_JSON_without_mount_not_rendered :
  getElementById [Pages.data "not-json"] "events-data" = Some (Pages.data "not-json") /\
  JSON.parse (textContent (Pages.data "not-json")) = inl JSON.syntax_error /\
  diagnostics (effects JSON.parse Pages.library [Pages.data "not-json"]) =
    [[AText parse_failure_message; AError JSON.syntax_error]] /\
  map (fun c => FullCalendar.events (FullCalendar.options c))
    (constructed (effects JSON.parse Pages.library [Pages.data "not-json"])) =
    [VArray []] /\
  rendered (effects JSON.parse Pages.library [Pages.data "not-json"]) = [] /\
  outcome JSON.parse Pages.library [Pages.data "not-json"] =
    Threw (TypeError "Cannot read properties of null").
Proof. repeat split. Qed.

(** C6 as stated fails where the library throws: the data container is
    present, the page has no mount element, the constructor is called
    once and throws, and [render] is not called. *)
Lemma container_without_mount_not_rendered :
  is_Some (getElementById Pages.without_mount "events-data") /\
  length (constructed (effects JSON.parse Pages.library Pages.without_mount)) = 1 /\
  length (rendered (effects JSON.parse Pages.library Pages.without_mount)) = 0 /\
  ~ (length (constructed (effects JSON.parse Pages.library Pages.without_mount)) = 1 /\
     length (rendered (effects JSON.parse Pages.library Pages.without_mount)) = 1 /\
     rendered (effects JSON.parse Pages.library Pages.without_mount) =
       constructed (effects JSON.parse Pages.library Pages.without_mount)).
Proof.
  split; [eexists; reflexivity |].
  split; [reflexivity | split; [reflexivity |]].
  intros (_ & Hlen & _). discriminate Hlen.
Qed.

(** * Further properties of the listener *)

Section Further.

Variable JSON_parse : string -> exn + value.
Variable library : FullCalendar.Library.
Variable document : Document.

(** The listener from a state whose trace is not empty: its effects come
    after what is there. *)
Lemma listener_appends (t : list effect) :
  invoke (DOMContentLoaded JSON_parse library document) t =
  t ++ effects JSON_parse library document.
Proof.
  unfold invoke, effects, page_load, initial_state.
  destruct (getElementById document "events-data") as [eventsData |] eqn:Hdata.
  - rewrite !(listener_with_container JSON_parse library document _ _ Hdata).
    reflexivity.
  - unfold DOMContentLoaded. rewrite Hdata. reflexivity.
Qed.

Lemma listeners_after_registration (registered : gmap string (list (M unit)))
    (type : string) (listener : M unit) :
  listeners_of (addEventListener type listener registered) type =
  listeners_of registered type ++ [listener].
Proof.
  unfold addEventListener. unfold listeners_of at 1.
  rewrite lookup_insert_eq. reflexivity.
Qed.

(** The library calls write nothing to the console. *)
Lemma library_calls_not_console (c : FullCalendar.Calendar) (entry : effect) :
  entry ∈ snd (library_calls library c) -> is_console entry = false.
Proof.
  unfold library_calls.
  destruct (FullCalendar.constructor_outcome library c);
    [| destruct (FullCalendar.render_outcome library c)];
    cbn [snd]; intros Hin;
    repeat (apply elem_of_cons in Hin as [-> | Hin]; [reflexivity |]);
    inversion Hin.
Qed.

(** With the container present, a console line is in the trace exactly
    when it is the line of the parse step. *)
Lemma console_line_of_run (eventsData : Element) (entry : effect) :
  getElementById document "events-data" = Some eventsData ->
  is_console entry = true ->
  entry ∈ effects JSON_parse library document <->
  entry = match JSON_parse (textContent eventsData) with
          | inr v => ConsoleLog [AText loaded_message; AValue v]
          | inl e => ConsoleError [AText parse_failure_message; AError e]
          end.
Proof.
  intros Hdata Hconsole. unfold effects, page_load, initial_state.
  rewrite (listener_with_container JSON_parse library document _ [] Hdata).
  cbn [snd trace app]. rewrite elem_of_cons. split.
  - intros [Hline | Hcalls]; [exact Hline |].
    apply library_calls_not_console in Hcalls. congruence.
  - auto.
Qed.

(** X1. The calendar is built on the element that [getElementById] gives
    for the id [calendar]: every calendar constructed, and every calendar
    rendered, has that element as its mount. *)
Theorem mount_is_calendar_element (c : FullCalendar.Calendar) :
  c ∈ constructed (effects JSON_parse library document) \/
  c ∈ rendered (effects JSON_parse library document) ->
  FullCalendar.el c = getElementById document "calendar".
Proof.
  destruct (getElementById document "events-data") as [eventsData |] eqn:Hdata.
  - destruct (run_with_container JSON_parse library document _ Hdata) as (_ & Hc & Hr).
    rewrite Hc, Hr. intros [Hin | Hin].
    + apply list_elem_of_singleton in Hin. subst c. reflexivity.
    + destruct (FullCalendar.constructor_outcome library _); [inversion Hin |].
      apply list_elem_of_singleton in Hin. subst c. reflexivity.
  - unfold effects. rewrite (run_without_container JSON_parse library document Hdata).
    cbn. intros [Hin | Hin]; inversion Hin.
Qed.


(** X3. Where the library's constructor and [render] return for the
    calendar the listener builds, no exception leaves the listener,
    whatever the page holds and whatever the parse does, return a value
    of any shape or throw. *)
Theorem listener_never_throws :
  (forall c, c ∈ constructed (effects JSON_parse library document) ->
             FullCalendar.constructor_outcome library c = None /\
             FullCalendar.render_outcome library c = None) ->
  outcome JSON_parse library document = Returned tt.
Proof.
  case_eq (getElementById document "events-data").
  - intros eventsData Hdata Hreturns.
    destruct (run_with_container JSON_parse library document _ Hdata) as (Hout & Hc & _).
    rewrite Hc in Hreturns.
    destruct (Hreturns _ (list_elem_of_here _ _)) as [Hnew Hrender].
    rewrite Hout, (library_calls_returning library _ Hnew Hrender). reflexivity.
  - intros Hdata _. unfold outcome.
    rewrite (run_without_container JSON_parse library document Hdata). reflexivity.
Qed.

(** X14. An exception that leaves the listener is one the library threw,
    from the constructor or, the constructor having returned, from
    [render], for the one calendar the listener built.  What the parse
    throws never leaves it. *)
Theorem only_library_exceptions_escape (e : exn) :
  outcome JSON_parse library document = Threw e ->
  exists c,
    constructed (effects JSON_parse library document) = [c] /\
    (FullCalendar.constructor_outcome library c = Some e \/
     FullCalendar.constructor_outcome library c = None /\
     FullCalendar.render_outcome library c = Some e).
Proof.
  case_eq (getElementById document "events-data").
  - intros eventsData Hdata.
    destruct (run_with_container JSON_parse library document _ Hdata) as (Hout & Hc & _).
    rewrite Hout, Hc. unfold library_calls. intros Hthrew.
    eexists. split; [reflexivity |].
    destruct (FullCalendar.constructor_outcome library _) as [e1 |].
    + inversion Hthrew; subst. left. reflexivity.
    + destruct (FullCalendar.render_outcome library _) as [e2 |].
      * inversion Hthrew; subst. right. split; reflexivity.
      * discriminate Hthrew.
  - intros Hdata. unfold outcome.
    rewrite (run_without_container JSON_parse library document Hdata).
    discriminate.
Qed.

(** X4. The console line tells which way the listener went: the abort
    message is there exactly when the container is missing, the parse
    failure message with [e] exactly when the parse threw [e], the
    message of the loaded events with [v] exactly when the parse
    returned [v]. *)
Theorem console_line_identifies_path (e : exn) (v : value) :
  (ConsoleError [AText missing_container_message] ∈ effects JSON_parse library document <->
   getElementById document "events-data" = None) /\
  (ConsoleError [AText parse_failure_message; AError e]
     ∈ effects JSON_parse library document <->
   exists eventsData, getElementById document "events-data" = Some eventsData /\
                      JSON_parse (textContent eventsData) = inl e) /\
  (ConsoleLog [AText loaded_message; AValue v] ∈ effects JSON_parse library document <->
   exists eventsData, getElementById document "events-data" = Some eventsData /\
                      JSON_parse (textContent eventsData) = inr v).
Proof.
  destruct (getElementById document "events-data") as [eventsData |] eqn:Hdata.
  - rewrite (console_line_of_run eventsData
               (ConsoleError [AText missing_container_message]) Hdata eq_refl).
    rewrite (console_line_of_run eventsData
               (ConsoleError [AText parse_failure_message; AError e]) Hdata eq_refl).
    rewrite (console_line_of_run eventsData
               (ConsoleLog [AText loaded_message; AValue v]) Hdata eq_refl).
    destruct (JSON_parse (textContent eventsData)) as [e' | v'] eqn:Hparse;
      repeat split; try discriminate.
    + intros H. inversion H; subst. eauto.
    + intros (ed & Hed & He). inversion Hed; subst.
      rewrite Hparse in He. inversion He; subst. reflexivity.
    + intros (ed & Hed & Hv). inversion Hed; subst.
      rewrite Hparse in Hv. discriminate Hv.
    + intros (ed & Hed & He). inversion Hed; subst.
      rewrite Hparse in He. discriminate He.
    + intros H. inversion H; subst. eauto.
    + intros (ed & Hed & Hv). inversion Hed; subst.
      rewrite Hparse in Hv. inversion Hv; subst. reflexivity.
  - unfold effects. rewrite (run_without_container JSON_parse library document Hdata). cbn.
    rewrite !list_elem_of_singleton. repeat split; auto.
    + discriminate.
    + intros (ed & Hed & _). discriminate Hed.
    + discriminate.
    + intros (ed & Hed & _). discriminate Hed.
Qed.

(** X5. The console and the calendar agree.  For a constructed calendar,
    either no diagnostic was written and the one console line shows the
    very value the calendar has as [events], or the parse failure was
    reported and the calendar has the empty array. *)
Theorem console_agrees_with_view (c : FullCalendar.Calendar) :
  c ∈ constructed (effects JSON_parse library document) ->
  (diagnostics (effects JSON_parse library document) = [] /\
   console_output (effects JSON_parse library document) =
     [ConsoleLog [AText loaded_message;
                  AValue (FullCalendar.events (FullCalendar.options c))]]) \/
  (exists e, diagnostics (effects JSON_parse library document) =
               [[AText parse_failure_message; AError e]] /\
             FullCalendar.events (FullCalendar.options c) = VArray []).
Proof.
  destruct (getElementById document "events-data") as [eventsData |] eqn:Hdata.
  - destruct (run_with_container JSON_parse library document _ Hdata) as (_ & Hc & _).
    rewrite Hc. unfold events_after_parse. intros Hin.
    apply list_elem_of_singleton in Hin. subst c.
    destruct (JSON_parse (textContent eventsData)) as [e | v] eqn:Hparse.
    + right. exists e.
      split; [exact (proj2 (console_thrown JSON_parse library document _ _ Hdata Hparse)) |].
      reflexivity.
    + left.
      destruct (console_parsed JSON_parse library document _ _ Hdata Hparse).
      split; assumption.
  - unfold effects. rewrite (run_without_container JSON_parse library document Hdata).
    cbn. intros Hin. inversion Hin.
Qed.

(** X6. Loading the script only registers the listener.  An event of
    another type runs what was registered before, the same as without
    the script. *)
Theorem script_ignores_other_events
    (registered : gmap string (list (M unit))) (type : string) (t : list effect) :
  type <> "DOMContentLoaded" ->
  dispatchEvent (script JSON_parse library document registered) type t =
  dispatchEvent registered type t.
Proof.
  intros Hother. unfold dispatchEvent, script, addEventListener, listeners_of.
  rewrite lookup_insert_ne by congruence. reflexivity.
Qed.


(** X8. Nothing guards against a second registration: with the script
    loaded twice, the event runs the listener twice, one run after the
    other, each with its console line and its calendar. *)
Theorem script_twice_runs_twice (t : list effect) :
  dispatchEvent
    (script JSON_parse library document (script JSON_parse library document ∅))
    "DOMContentLoaded" t =
  t ++ effects JSON_parse library document ++ effects JSON_parse library document.
Proof.
  unfold dispatchEvent, script.
  rewrite !listeners_after_registration, !fold_left_app. cbn [fold_left].
  rewrite !listener_appends.
  unfold listeners_of. rewrite lookup_empty. cbn.
  rewrite <- app_assoc. reflexivity.
Qed.

(** X9. The library cannot tell malformed data from an empty list: with
    the same mount element, a page whose data does not parse and a page
    whose data is the empty array lead to the same constructor call and
    the same [render]. *)
Theorem malformed_like_empty_array
    (parse1 parse2 : string -> exn + value) (page1 page2 : Document)
    (data1 data2 : Element) (e : exn) :
  getElementById page1 "calendar" = getElementById page2 "calendar" ->
  getElementById page1 "events-data" = Some data1 ->
  parse1 (textContent data1) = inl e ->
  getElementById page2 "events-data" = Some data2 ->
  parse2 (textContent data2) = inr (VArray []) ->
  constructed (effects parse1 library page1) = constructed (effects parse2 library page2) /\
  rendered (effects parse1 library page1) = rendered (effects parse2 library page2).
Proof.
  intros Hmount Hdata1 Hparse1 Hdata2 Hparse2.
  destruct (run_with_container parse1 library page1 _ Hdata1) as (_ & Hc1 & Hr1).
  destruct (run_with_container parse2 library page2 _ Hdata2) as (_ & Hc2 & Hr2).
  rewrite Hc1, Hc2, Hr1, Hr2. unfold events_after_parse.
  rewrite Hparse1, Hparse2. unfold view_of_events. rewrite Hmount.
  split; reflexivity.
Qed.

(** X10. The listener looks at the page through two calls of
    [getElementById] and at the parse through one text.  Two page loads
    that agree on the two elements, and whose parse functions agree on
    the text of the container, are the same run: the same completion, the
    same trace. *)
Theorem listener_reads_two_elements
    (parse1 parse2 : string -> exn + value) (page1 page2 : Document) :
  getElementById page1 "calendar" = getElementById page2 "calendar" ->
  getElementById page1 "events-data" = getElementById page2 "events-data" ->
  (forall eventsData, getElementById page1 "events-data" = Some eventsData ->
                      parse1 (textContent eventsData) = parse2 (textContent eventsData)) ->
  page_load parse1 library page1 = page_load parse2 library page2.
Proof.
  intros Hmount Hdata Hparse.
  destruct (getElementById page1 "events-data") as [eventsData |] eqn:Hdata1.
  - specialize (Hparse eventsData eq_refl). symmetry in Hdata.
    unfold page_load, initial_state.
    rewrite (listener_with_container parse1 library page1 _ [] Hdata1).
    rewrite (listener_with_container parse2 library page2 _ [] Hdata).
    unfold events_after_parse, view_of_events. rewrite Hparse, Hmount. reflexivity.
  - symmetry in Hdata.
    rewrite (run_without_container parse1 library page1 Hdata1).
    rewrite (run_without_container parse2 library page2 Hdata). reflexivity.
Qed.

End Further.

(** X11. The mount element reaches the constructor's first argument and
    nothing the script itself produces.  Two pages with the same data
    container, whatever their mount elements and whatever the library
    does with them, give the same console output and the same options to
    the constructor. *)
Theorem mount_reaches_constructor_only
    (JSON_parse : string -> exn + value) (library1 library2 : FullCalendar.Library)
    (page1 page2 : Document) :
  getElementById page1 "events-data" = getElementById page2 "events-data" ->
  console_output (effects JSON_parse library1 page1) =
    console_output (effects JSON_parse library2 page2) /\
  map FullCalendar.options (constructed (effects JSON_parse library1 page1)) =
    map FullCalendar.options (constructed (effects JSON_parse library2 page2)).
Proof.
  intros Hdata.
  destruct (getElementById page1 "events-data") as [eventsData |] eqn:Hdata1;
    symmetry in Hdata.
  - destruct (run_with_container JSON_parse library1 page1 _ Hdata1) as (_ & Hc1 & _).
    destruct (run_with_container JSON_parse library2 page2 _ Hdata) as (_ & Hc2 & _).
    rewrite Hc1, Hc2. split; [| reflexivity].
    destruct (JSON_parse (textContent eventsData)) as [e | v] eqn:Hparse.
    + rewrite (proj1 (console_thrown JSON_parse library1 page1 _ _ Hdata1 Hparse)).
      rewrite (proj1 (console_thrown JSON_parse library2 page2 _ _ Hdata Hparse)).
      reflexivity.
    + rewrite (proj1 (console_parsed JSON_parse library1 page1 _ _ Hdata1 Hparse)).
      rewrite (proj1 (console_parsed JSON_parse library2 page2 _ _ Hdata Hparse)).
      reflexivity.
  - unfold effects.
    rewrite (run_without_container JSON_parse library1 page1 Hdata1).
    rewrite (run_without_container JSON_parse library2 page2 Hdata). split; reflexivity.
Qed.

(** ** Blank text, with the reference parser *)

Lemma blank_lexes_to_nothing (cs : list ascii) :
  forallb JSON.is_ws cs = true ->
  forall toks, JSON.lex JSON.Between toks cs = Some (rev toks).
Proof.
  induction cs as [| c cs IH]; intros Hblank toks; [reflexivity |].
  cbn [forallb] in Hblank. apply andb_prop in Hblank as [Hc Hcs].
  cbn [JSON.lex JSON.lex_char]. unfold JSON.boundary. rewrite Hc.
  apply IH. exact Hcs.
Qed.

Lemma parse_blank (text : string) :
  forallb JSON.is_ws (list_ascii_of_string text) = true ->
  JSON.parse text = inl JSON.syntax_error.
Proof.
  intros Hblank. unfold JSON.parse.
  rewrite (blank_lexes_to_nothing _ Hblank). reflexivity.
Qed.

(** A data container that is empty, or holds white space only, is
    malformed data for the reference parser: the parse failure is
    reported and the calendar is built with no events. *)
Lemma blank_container_gives_empty_calendar (library : FullCalendar.Library)
    (document : Document) (eventsData : Element) :
  getElementById document "events-data" = Some eventsData ->
  forallb JSON.is_ws (list_ascii_of_string (textContent eventsData)) = true ->
  diagnostics (effects JSON.parse library document) =
    [[AText parse_failure_message; AError JSON.syntax_error]] /\
  exists c,
    constructed (effects JSON.parse library document) = [c] /\
    FullCalendar.events (FullCalendar.options c) = VArray [].
Proof.
  intros Hdata Hblank.
  split.
  - exact (proj2 (console_thrown JSON.parse library document _ _ Hdata
                    (parse_blank _ Hblank))).
  - destruct (run_with_container JSON.parse library document _ Hdata) as (_ & Hc & _).
    unfold events_after_parse in Hc. rewrite (parse_blank _ Hblank) in Hc.
    eexists. split; [exact Hc | reflexivity].
Qed.

(** * The further properties on concrete pages *)

Lemma mount_is_calendar_element_witness :
  (view_of_events Pages.with_two_events (VArray [Pages.cours; Pages.tp])
     ∈ constructed (effects JSON.parse Pages.library Pages.with_two_events) \/
   view_of_events Pages.with_two_events (VArray [Pages.cours; Pages.tp])
     ∈ rendered (effects JSON.parse Pages.library Pages.with_two_events)) /\
  FullCalendar.el (view_of_events Pages.with_two_events (VArray [Pages.cours; Pages.tp])) =
    getElementById Pages.with_two_events "calendar".
Proof.
  split; [left; vm_compute; apply list_elem_of_here |].
  apply (mount_is_calendar_element JSON.parse Pages.library Pages.with_two_events).
  left. vm_compute. apply list_elem_of_here.
Defined.

Lemma console_agrees_with_view_witness :
  view_of_events Pages.with_invalid_JSON (VArray [])
    ∈ constructed (effects JSON.parse Pages.library Pages.with_invalid_JSON) /\
  ((diagnostics (effects JSON.parse Pages.library Pages.with_invalid_JSON) = [] /\
    console_output (effects JSON.parse Pages.library Pages.with_invalid_JSON) =
      [ConsoleLog
         [AText loaded_message;
          AValue (FullCalendar.events
                    (FullCalendar.options
                       (view_of_events Pages.with_invalid_JSON (VArray []))))]]) \/
   (exists e, diagnostics (effects JSON.parse Pages.library Pages.with_invalid_JSON) =
                [[AText parse_failure_message; AError e]] /\
              FullCalendar.events
                (FullCalendar.options
                   (view_of_events Pages.with_invalid_JSON (VArray []))) = VArray [])).
Proof.
  split; [vm_compute; apply list_elem_of_here |].
  apply (console_agrees_with_view JSON.parse Pages.library Pages.with_invalid_JSON).
  vm_compute. apply list_elem_of_here.
Defined.

Lemma script_ignores_other_events_witness :
  "load" <> "DOMContentLoaded" /\
  dispatchEvent (script JSON.parse Pages.library Pages.with_two_events ∅) "load" [] =
  dispatchEvent ∅ "load" [].
Proof.
  split; [discriminate |].
  apply (script_ignores_other_events JSON.parse Pages.library Pages.with_two_events ∅ "load" []).
  discriminate.
Defined.

(** Not-json against the empty array. *)
Lemma malformed_like_empty_array_witness :
  getElementById Pages.with_invalid_JSON "calendar" =
    getElementById Pages.with_no_events "calendar" /\
  getElementById Pages.with_invalid_JSON "events-data" = Some (Pages.data "not-json") /\
  JSON.parse (textContent (Pages.data "not-json")) = inl JSON.syntax_error /\
  getElementById Pages.with_no_events "events-data" = Some (Pages.data "[]") /\
  JSON.parse (textContent (Pages.data "[]")) = inr (VArray []) /\
  constructed (effects JSON.parse Pages.library Pages.with_invalid_JSON) =
    constructed (effects JSON.parse Pages.library Pages.with_no_events) /\
  rendered (effects JSON.parse Pages.library Pages.with_invalid_JSON) =
    rendered (effects JSON.parse Pages.library Pages.with_no_events).
Proof.
  do 5 (split; [reflexivity |]).
  apply (malformed_like_empty_array Pages.library JSON.parse JSON.parse
           Pages.with_invalid_JSON Pages.with_no_events
           (Pages.data "not-json") (Pages.data "[]") JSON.syntax_error);
    reflexivity.
Defined.

(** The page with two events against a page that has other elements
    around them and a second element with the id of the container. *)
Lemma listener_reads_two_elements_witness :
  getElementById Pages.with_two_events "calendar" =
    getElementById
      [{| Element_id := "header"; textContent := "Agenda" |};
       Pages.mount; Pages.data Pages.two_events_text;
       Pages.data "not-json"] "calendar" /\
  getElementById Pages.with_two_events "events-data" =
    getElementById
      [{| Element_id := "header"; textContent := "Agenda" |};
       Pages.mount; Pages.data Pages.two_events_text;
       Pages.data "not-json"] "events-data" /\
  (forall eventsData,
     getElementById Pages.with_two_events "events-data" = Some eventsData ->
     JSON.parse (textContent eventsData) = JSON.parse (textContent eventsData)) /\
  page_load JSON.parse Pages.library Pages.with_two_events =
    page_load JSON.parse Pages.library
      [{| Element_id := "header"; textContent := "Agenda" |};
       Pages.mount; Pages.data Pages.two_events_text;
       Pages.data "not-json"].
Proof.
  split; [reflexivity | split; [reflexivity | split; [reflexivity |]]].
  apply (listener_reads_two_elements Pages.library JSON.parse JSON.parse
           Pages.with_two_events
           [{| Element_id := "header"; textContent := "Agenda" |};
            Pages.mount; Pages.data Pages.two_events_text;
            Pages.data "not-json"]); reflexivity.
Defined.

(** With and without the mount element: the library returns on the
    first page and throws on the second. *)
Lemma mount_reaches_constructor_only_witness :
  getElementById Pages.with_no_events "events-data" =
    getElementById Pages.without_mount "events-data" /\
  console_output (effects JSON.parse Pages.library Pages.with_no_events) =
    console_output (effects JSON.parse Pages.library Pages.without_mount) /\
  map FullCalendar.options
    (constructed (effects JSON.parse Pages.library Pages.with_no_events)) =
    map FullCalendar.options
      (constructed (effects JSON.parse Pages.library Pages.without_mount)).
Proof.
  split; [reflexivity |].
  apply (mount_reaches_constructor_only JSON.parse Pages.library Pages.library
           Pages.with_no_events Pages.without_mount).
  reflexivity.
Defined.

(** The page with two events and its mount element. *)
Lemma listener_never_throws_witness :
  (forall c, c ∈ constructed (effects JSON.parse Pages.library Pages.with_two_events) ->
             FullCalendar.constructor_outcome Pages.library c = None /\
             FullCalendar.render_outcome Pages.library c = None) /\
  outcome JSON.parse Pages.library Pages.with_two_events = Returned tt.
Proof.
  assert (Hreturns :
    forall c, c ∈ constructed (effects JSON.parse Pages.library Pages.with_two_events) ->
              FullCalendar.constructor_outcome Pages.library c = None /\
              FullCalendar.render_outcome Pages.library c = None).
  { intros c Hin. vm_compute in Hin.
    apply list_elem_of_singleton in Hin. subst c. split; reflexivity. }
  split; [exact Hreturns |].
  apply (listener_never_throws JSON.parse Pages.library Pages.with_two_events).
  exact Hreturns.
Defined.

(** The page without its mount element. *)
Lemma only_library_exceptions_escape_witness :
  outcome JSON.parse Pages.library Pages.without_mount =
    Threw (TypeError "Cannot read properties of null") /\
  exists c,
    constructed (effects JSON.parse Pages.library Pages.without_mount) = [c] /\
    (FullCalendar.constructor_outcome Pages.library c =
       Some (TypeError "Cannot read properties of null") \/
     FullCalendar.constructor_outcome Pages.library c = None /\
     FullCalendar.render_outcome Pages.library c =
       Some (TypeError "Cannot read properties of null")).
Proof.
  split; [reflexivity |].
  apply (only_library_exceptions_escape JSON.parse Pages.library Pages.without_mount).
  reflexivity.
Defined.

(** A container that holds a space, a tab and a line feed. *)
Lemma blank_container_gives_empty_calendar_witness :
  getElementById (Pages.with_text (String " " (String "009" (String "010" EmptyString))))
    "events-data" =
    Some (Pages.data (String " " (String "009" (String "010" EmptyString)))) /\
  forallb JSON.is_ws
    (list_ascii_of_string
       (textContent (Pages.data (String " " (String "009" (String "010" EmptyString)))))) =
    true /\
  diagnostics
    (effects JSON.parse Pages.library
       (Pages.with_text (String " " (String "009" (String "010" EmptyString))))) =
    [[AText parse_failure_message; AError JSON.syntax_error]] /\
  exists c,
    constructed
      (effects JSON.parse Pages.library
         (Pages.with_text (String " " (String "009" (String "010" EmptyString))))) = [c] /\
    FullCalendar.events (FullCalendar.options c) = VArray [].
Proof.
  split; [reflexivity | split; [reflexivity |]].
  apply (blank_container_gives_empty_calendar Pages.library
           (Pages.with_text (String " " (String "009" (String "010" EmptyString))))
           (Pages.data (String " " (String "009" (String "010" EmptyString)))));
    reflexivity.
Defined.

(** Three elements of different kinds, with white space around one. *)
Lemma array_text_reaches_view_witness :
  getElementById (Pages.with_text (JSON.array_text ["1"; " true "; Pages.q "a"]))
    "events-data" =
    Some (Pages.data (JSON.array_text ["1"; " true "; Pages.q "a"])) /\
  textContent (Pages.data (JSON.array_text ["1"; " true "; Pages.q "a"])) =
    JSON.array_text ["1"; " true "; Pages.q "a"] /\
  Forall2 (fun text v => JSON.parse text = inr v)
    ["1"; " true "; Pages.q "a"]
    [VNumber (Number false 1 0); VBool true; VString "a"] /\
  exists c,
    constructed (effects JSON.parse Pages.library
                   (Pages.with_text (JSON.array_text ["1"; " true "; Pages.q "a"]))) = [c] /\
    data_source c = Some [VNumber (Number false 1 0); VBool true; VString "a"] /\
    length [VNumber (Number false 1 0); VBool true; VString "a"] =
      length ["1"; " true "; Pages.q "a"].
Proof.
  split; [reflexivity | split; [reflexivity | split; [repeat constructor |]]].
  apply (array_text_reaches_view Pages.library
           (Pages.with_text (JSON.array_text ["1"; " true "; Pages.q "a"]))
           (Pages.data (JSON.array_text ["1"; " true "; Pages.q "a"]))
           ["1"; " true "; Pages.q "a"]
           [VNumber (Number false 1 0); VBool true; VString "a"]).
  - reflexivity.
  - reflexivity.
  - repeat constructor.
Defined.
